(** * ElectricTruckRouting: energy model, CC-CV charging model, station
    matching and the weight-vector sweep, embedded from the Python sources

    Numbers.  The Python code computes with floats (and a few ints).  They are
    modelled by exact rationals [Q]: every arithmetic expression below is the
    expression of the source, read over the rationals.  Equality of numbers is
    [Qeq] ([==]).  A Python division whose divisor is zero raises
    [ZeroDivisionError]; it is modelled by [pydiv], which returns an error.

    Exceptions.  Code that can raise returns a [result]; [Raise e] is the
    exception [e] leaving the function.

    Mutation.  [apply_temperature_effect] assigns a field of the truck model;
    the functions that call it return the updated model next to their value. *)

From Stdlib Require Import QArith Qminmax Qabs Lqa Lia List String Bool.
Import ListNotations.

Local Open Scope Q_scope.

(** ** Exceptions and results *)

Inductive exn : Type :=
| ZeroDivisionError
| KeyError
| TypeError
| ValueError
| AttributeError
| NodeNotFound
| NetworkXNoPath.

Inductive result (A : Type) : Type :=
| Ok (a : A)
| Raise (e : exn).

Arguments Ok {A} a.
Arguments Raise {A} e.

Definition bind {A B : Type} (r : result A) (k : A -> result B) : result B :=
  match r with
  | Ok a => k a
  | Raise e => Raise e
  end.

Notation "x <- r ;; k" := (bind r (fun x => k))
  (at level 61, r at next level, right associativity).

(** [d[key]] on a dict whose entry may be absent. *)
Definition getitem {A : Type} (o : option A) : result A :=
  match o with
  | Some a => Ok a
  | None => Raise KeyError
  end.

(** [d.get(key, default)]. *)
Definition get_default {A : Type} (o : option A) (d : A) : A :=
  match o with
  | Some a => a
  | None => d
  end.

(** Python's [/] on numbers. *)
Definition Qis_zero (x : Q) : bool := Qeq_bool x 0.

Definition pydiv (x y : Q) : result Q :=
  if Qis_zero y then Raise ZeroDivisionError else Ok (x / y).

(** [a < b] and [a <= b] as the tests of an [if]. *)
Definition Qltb (a b : Q) : bool := negb (Qle_bool b a).
Definition Qleb (a b : Q) : bool := Qle_bool a b.

(** Python's [min(a, b)] and [max(a, b)]: the first argument unless the
    second is strictly smaller (resp. larger). *)
Definition pymin (a b : Q) : Q := if Qltb b a then b else a.
Definition pymax (a b : Q) : Q := if Qltb a b then b else a.

(** Results whose numbers agree up to [==]. *)
Definition result_Qeq (r1 r2 : result Q) : Prop :=
  match r1, r2 with
  | Ok a, Ok b => a == b
  | Raise e1, Raise e2 => e1 = e2
  | _, _ => False
  end.

(** ** charging_integration.py: the charging model *)

Module Charging.

(** A row of the station table: the columns the code reads. *)
Record Station : Type := mkStation {
  station_name : string;
  Power_kW : Q;
  Longitude : Q;   (* geometry.x *)
  Latitude : Q     (* geometry.y *)
}.

(** The graph as far as the station manager reads it:
    [graph.nodes[n]["x"]], [graph.nodes[n]["y"]]. *)
Definition NodeTable : Type := list (string * (Q * Q)).

Record ChargingStationManager : Type := mkManager {
  graph : option NodeTable;
  stations : option (list Station);
  valid_power_levels_kw : list Q;
  battery_capacity_kwh : Q;
  max_charge_power_kw : Q;
  cc_cutoff_soc : Q;
  cc_efficiency : Q;
  cv_efficiency : Q
}.

(** [ChargingStationManager.__init__(graph)]. *)
Definition init (g : option NodeTable) : ChargingStationManager :=
  {| graph := g;
     stations := None;
     valid_power_levels_kw := [150; 300; 350; 750];
     battery_capacity_kwh := 600;
     max_charge_power_kw := 750;
     cc_cutoff_soc := 80 # 100;
     cc_efficiency := 93 # 100;
     cv_efficiency := 88 # 100 |}.

(** Phase 1 of [charging_time_minutes]: [time_hours_cc]. *)
Definition time_hours_cc (self : ChargingStationManager)
    (soc1 soc2 charger_power_kw : Q) : result Q :=
  let cc_limit := cc_cutoff_soc self in
  if Qltb soc1 cc_limit then
    let soc_cc_end := pymin soc2 cc_limit in
    let energy_added_kwh := (soc_cc_end - soc1) * battery_capacity_kwh self in
    pydiv energy_added_kwh (charger_power_kw * cc_efficiency self)
  else Ok 0.

(** Phase 2 of [charging_time_minutes]: [time_hours_cv]. *)
Definition time_hours_cv (self : ChargingStationManager)
    (soc1 soc2 charger_power_kw : Q) : result Q :=
  let cc_limit := cc_cutoff_soc self in
  if Qltb cc_limit soc2 then
    let soc2_cv := soc2 in
    let soc1_cv := pymax soc1 cc_limit in
    let energy_added_kwh_cv := (soc2_cv - soc1_cv) * battery_capacity_kwh self in
    let average_cv_power := charger_power_kw * (40 # 100) in
    pydiv energy_added_kwh_cv (average_cv_power * cv_efficiency self)
  else Ok 0.

Definition charging_time_minutes (self : ChargingStationManager)
    (soc_initial soc_target charger_power_kw : Q) : result Q :=
  if Qleb soc_target soc_initial then Ok 0
  else
    let soc1 := soc_initial in
    let soc2 := soc_target in
    t_cc <- time_hours_cc self soc1 soc2 charger_power_kw ;;
    t_cv <- time_hours_cv self soc1 soc2 charger_power_kw ;;
    let total_hours := t_cc + t_cv in
    let total_minutes := total_hours * 60 in
    Ok total_minutes.

(** The dict returned by [simulate_charging_event]. *)
Record ChargingEvent : Type := mkEvent {
  soc_final : Q;
  charging_minutes : Q;
  energy_added_kwh : Q
}.

Definition simulate_charging_event (self : ChargingStationManager)
    (soc_initial target_soc station_power_kw : Q) : result ChargingEvent :=
  time_min <- charging_time_minutes self soc_initial target_soc station_power_kw ;;
  let energy_kwh := (target_soc - soc_initial) * battery_capacity_kwh self in
  Ok {| soc_final := target_soc;
        charging_minutes := time_min;
        energy_added_kwh := energy_kwh |}.

(** [self.stations = gdf], the last assignment of [load_eafo_dataset]. *)
Definition set_stations (self : ChargingStationManager) (gdf : list Station)
  : ChargingStationManager :=
  {| graph := graph self;
     stations := Some gdf;
     valid_power_levels_kw := valid_power_levels_kw self;
     battery_capacity_kwh := battery_capacity_kwh self;
     max_charge_power_kw := max_charge_power_kw self;
     cc_cutoff_soc := cc_cutoff_soc self;
     cc_efficiency := cc_efficiency self;
     cv_efficiency := cv_efficiency self |}.

(** *** Geometry

    Points are pairs [(x, y)] = (longitude, latitude) in degrees, as
    [gpd.points_from_xy(lons, lats)] builds them. *)
Definition Point : Type := (Q * Q)%type.

Definition geometry (s : Station) : Point := (Longitude s, Latitude s).

Definition dist2 (p c : Point) : Q :=
  (fst p - fst c) * (fst p - fst c) + (snd p - snd c) * (snd p - snd c).

(** A stand-in for [p.within(pts.unary_union.buffer(r))] of shapely, with
    which the query runs on concrete inputs: the union of the open discs of
    radius [r] around the points, empty for a non-positive [r].  Shapely's
    buffer of a point is a polygon of 64 sides inscribed in the circle of
    radius [r], whose vertices, the four axis points [(x +- r, y)],
    [(x, y +- r)] among them, lie on the circle, and [within] holds for the
    points of its interior only.  The stand-in and shapely agree on the points
    of the circles and outside them, and on the points closer to a route point
    than the sides of its polygon are; a point strictly between a polygon and
    its circle is in the stand-in only.  The module [Shapely] below has the
    query over the predicate itself. *)
Definition within_buffer (pts : list Point) (r : Q) (p : Point) : bool :=
  Qltb 0 r && existsb (fun c => Qltb (dist2 p c) (r * r)) pts.

(** [self.graph.nodes[node]] followed by ["y"] and ["x"]. *)
Fixpoint nodes_getitem (tbl : NodeTable) (node : string) : result (Q * Q) :=
  match tbl with
  | [] => Raise KeyError
  | (n, xy) :: tbl' => if String.eqb n node then Ok xy else nodes_getitem tbl' node
  end.

(** The loop of [get_candidate_stations_near_route] that collects the
    coordinates of the route. *)
Fixpoint route_points (g : option NodeTable) (path_nodes : list string)
  : result (list Point) :=
  match path_nodes with
  | [] => Ok []
  | node :: rest =>
      tbl <- match g with Some tbl => Ok tbl | None => Raise AttributeError end ;;
      xy <- nodes_getitem tbl node ;;
      pts <- route_points g rest ;;
      Ok (xy :: pts)
  end.

Definition default_buffer_km : Q := 5.

Definition get_candidate_stations_near_route (self : ChargingStationManager)
    (path_nodes : list string) (buffer_km : Q) : result (list Station) :=
  match stations self with
  | None => Raise ValueError
  | Some sts =>
      pts <- route_points (graph self) path_nodes ;;
      let route_buffer := within_buffer pts (buffer_km / 111) in
      let nearby := filter (fun s => route_buffer (geometry s)) sts in
      Ok nearby
  end.

End Charging.

(** ** The station query over the predicate of shapely *)

Module Shapely.
Import Charging.

Section Within.

(** [p.within(pts.unary_union.buffer(r))] of shapely, a library the
    repository calls: whether the point [p] lies in the interior of the buffer
    of radius [r] around the points [pts]. *)
Variable within : list Point -> Q -> Point -> bool.

Definition get_candidate_stations_near_route (self : ChargingStationManager)
    (path_nodes : list string) (buffer_km : Q) : result (list Station) :=
  match stations self with
  | None => Raise ValueError
  | Some sts =>
      pts <- route_points (graph self) path_nodes ;;
      let route_buffer := within pts (buffer_km / 111) in
      let nearby := filter (fun s => route_buffer (geometry s)) sts in
      Ok nearby
  end.

End Within.

(** A rational below cos(pi/64) = 0.99879...: the polygon of 64 sides
    inscribed in the circle of radius [r] holds the disc of radius
    [cos(pi/64) r] around its centre. *)
Definition inner_ratio : Q := 9987 # 10000.

(** What the properties use of shapely's buffer, with 16 segments to the
    quarter circle as it is by default.  The buffer is empty unless [r] is
    positive; a point within it is at distance at most [r] from one of the
    points; around a single point the polygon is inscribed in the circle, so
    that a point within it is at distance less than [r]; and a point closer
    than [inner_ratio r] to one of the points is within the buffer. *)
Record buffer_facts (within : list Point -> Q -> Point -> bool) : Prop := {
  buffer_inside_discs :
    forall pts r p,
      within pts r p = true ->
      0 < r /\ exists c, In c pts /\ dist2 p c <= r * r;
  buffer_open_at_one_point :
    forall c r p, within [c] r p = true -> dist2 p c < r * r;
  buffer_holds_inner_discs :
    forall pts r p c,
      0 < r -> In c pts ->
      dist2 p c < (inner_ratio * r) * (inner_ratio * r) ->
      within pts r p = true
}.

End Shapely.

(** ** energy_model.py: the physical energy model *)

Module Energy.

Record ElectricTruckModel : Type := mkTruck {
  mass_kg : Q;
  frontal_area : Q;
  drag_coefficient : Q;
  rolling_res_coeff : Q;
  air_density : Q;
  drivetrain_eff : Q;
  regen_eff : Q;
  aux_load_kw : Q;
  temperature_loss_factor : Q;
  battery_capacity_kwh : Q;
  min_soc : Q;
  max_soc : Q;
  (* set by the subclass [EnergyModel] only *)
  consumption_kwh_per_km : option Q
}.

(** [ElectricTruckModel.__init__()]. *)
Definition init : ElectricTruckModel :=
  {| mass_kg := 40000;
     frontal_area := 9;
     drag_coefficient := 55 # 100;
     rolling_res_coeff := 6 # 1000;
     air_density := 1225 # 1000;
     drivetrain_eff := 90 # 100;
     regen_eff := 65 # 100;
     aux_load_kw := 25 # 10;
     temperature_loss_factor := 1;
     battery_capacity_kwh := 600;
     min_soc := 10 # 100;
     max_soc := 1;
     consumption_kwh_per_km := None |}.

(** [EnergyModel.__init__(mass_kg, frontal_area_m2, drag_coeff,
    rolling_resistance, battery_kwh, drivetrain_eff)]. *)
Definition EnergyModel_init (mass frontal_area_m2 drag_coeff
    rolling_resistance battery_kwh eff : Q) : ElectricTruckModel :=
  {| mass_kg := mass;
     frontal_area := frontal_area_m2;
     drag_coefficient := drag_coeff;
     rolling_res_coeff := rolling_resistance;
     air_density := air_density init;
     drivetrain_eff := eff;
     regen_eff := regen_eff init;
     aux_load_kw := aux_load_kw init;
     temperature_loss_factor := temperature_loss_factor init;
     battery_capacity_kwh := battery_kwh;
     min_soc := min_soc init;
     max_soc := max_soc init;
     consumption_kwh_per_km := Some (145 # 100) |}.

Definition g : Q := 981 # 100.

Definition rolling_resistance_power (self : ElectricTruckModel) (speed_mps : Q) : Q :=
  rolling_res_coeff self * mass_kg self * g * speed_mps.

Definition aerodynamic_drag_power (self : ElectricTruckModel) (speed_mps : Q) : Q :=
  (5 # 10) * air_density self * drag_coefficient self * frontal_area self
  * speed_mps ^ 3.

Definition climbing_power (self : ElectricTruckModel) (gradient speed_mps : Q) : Q :=
  mass_kg self * g * gradient * speed_mps.

Definition segment_energy_kwh (self : ElectricTruckModel)
    (distance_m avg_speed_mps gradient : Q) : result Q :=
  let P_roll := rolling_resistance_power self avg_speed_mps in
  let P_drag := aerodynamic_drag_power self avg_speed_mps in
  let P_climb := climbing_power self gradient avg_speed_mps in
  let P_aux := aux_load_kw self * 1000 in
  let P_total := P_roll + P_drag + P_climb + P_aux in
  time_sec <- pydiv distance_m avg_speed_mps ;;
  let E_mech_wh := (P_total * time_sec) / 3600 * 1000 in
  E_elec_wh <- (if Qleb 0 E_mech_wh
                then pydiv E_mech_wh (drivetrain_eff self)
                else Ok (E_mech_wh * regen_eff self)) ;;
  Ok (E_elec_wh / 1000).

Definition soc_after_segment (self : ElectricTruckModel)
    (soc_initial energy_kwh : Q) : result Q :=
  let battery_kwh_used := energy_kwh in
  used <- pydiv battery_kwh_used (battery_capacity_kwh self) ;;
  Ok (soc_initial - used).

Definition soc_valid (self : ElectricTruckModel) (soc_value : Q) : bool :=
  Qleb (min_soc self) soc_value && Qleb soc_value (max_soc self).

Definition set_temperature_loss_factor (self : ElectricTruckModel) (f : Q)
  : ElectricTruckModel :=
  {| mass_kg := mass_kg self;
     frontal_area := frontal_area self;
     drag_coefficient := drag_coefficient self;
     rolling_res_coeff := rolling_res_coeff self;
     air_density := air_density self;
     drivetrain_eff := drivetrain_eff self;
     regen_eff := regen_eff self;
     aux_load_kw := aux_load_kw self;
     temperature_loss_factor := f;
     battery_capacity_kwh := battery_capacity_kwh self;
     min_soc := min_soc self;
     max_soc := max_soc self;
     consumption_kwh_per_km := consumption_kwh_per_km self |}.

(** [apply_temperature_effect] assigns [self.temperature_loss_factor]; the
    updated model is returned. *)
Definition apply_temperature_effect (self : ElectricTruckModel) (temp_c : Q)
  : ElectricTruckModel :=
  if Qltb temp_c 0 then set_temperature_loss_factor self (115 # 100)
  else if Qltb temp_c 10 then set_temperature_loss_factor self (105 # 100)
  else set_temperature_loss_factor self 1.

(** [compute_edge_energy]: the value returned and the model after the call.
    When [segment_energy_kwh] raises, the factor has been assigned already, but
    the exception is all the caller sees. *)
Definition compute_edge_energy (self : ElectricTruckModel)
    (edge_length_m speed_mps gradient temp_c : Q)
  : result (Q * ElectricTruckModel) :=
  let self' := apply_temperature_effect self temp_c in
  base_energy <- segment_energy_kwh self' edge_length_m speed_mps gradient ;;
  Ok (base_energy * temperature_loss_factor self', self').

(** The default of [temp_c]. *)
Definition default_temp_c : Q := 15.

End Energy.

(** ** The road graph (networkx [MultiDiGraph]) *)

Module Graph.

Definition node : Type := string.

(** The attribute dict of an edge: the keys the code reads or writes. *)
Record EdgeData : Type := mkData {
  attr_length : option Q;
  attr_speed_kph : option Q;
  attr_grade : option Q;
  attr_travel_time_h : option Q;
  attr_weight : option Q
}.

Record Edge : Type := mkEdge {
  src : node;
  dst : node;
  key : nat;
  data : EdgeData
}.

(** Nodes with their [x] and [y] attributes and edges, both in insertion
    order. *)
Record MultiDiGraph : Type := mkGraph {
  nodes : list (node * (Q * Q));
  edges : list Edge
}.

Definition empty : MultiDiGraph := {| nodes := []; edges := [] |}.

Definition joins (u v : node) (e : Edge) : bool :=
  String.eqb (src e) u && String.eqb (dst e) v.

(** [G.get_edge_data(u, v)]: the dict key -> attributes of the edges from
    [u] to [v], [None] when there is none. *)
Definition get_edge_data (G : MultiDiGraph) (u v : node)
  : option (list (nat * EdgeData)) :=
  match filter (joins u v) (edges G) with
  | [] => None
  | es => Some (map (fun e => (key e, data e)) es)
  end.

(** [G.add_node(name, x=lon, y=lat)]: a node already present keeps its place
    and gets the new attributes. *)
Definition add_node (G : MultiDiGraph) (name : node) (x y : Q) : MultiDiGraph :=
  {| nodes := if existsb (fun n => String.eqb (fst n) name) (nodes G)
              then map (fun n => if String.eqb (fst n) name
                                 then (name, (x, y)) else n) (nodes G)
              else nodes G ++ [(name, (x, y))];
     edges := edges G |}.

Definition has_node (G : MultiDiGraph) (n : node) : bool :=
  existsb (fun m => String.eqb (fst m) n) (nodes G).

(** [G.add_edge(u, v, length=..., speed_kph=...)]: the new key is the number of
    edges already joining [u] to [v]. *)
Definition add_edge (G : MultiDiGraph) (u v : node) (len speed : Q) : MultiDiGraph :=
  {| nodes := nodes G;
     edges := edges G ++
       [ {| src := u; dst := v;
            key := List.length (filter (joins u v) (edges G));
            data := {| attr_length := Some len;
                       attr_speed_kph := Some speed;
                       attr_grade := None;
                       attr_travel_time_h := None;
                       attr_weight := None |} |} ] |}.

Definition set_travel_time_h (d : EdgeData) (t : Q) : EdgeData :=
  {| attr_length := attr_length d;
     attr_speed_kph := attr_speed_kph d;
     attr_grade := attr_grade d;
     attr_travel_time_h := Some t;
     attr_weight := attr_weight d |}.

Definition set_weight (d : EdgeData) (w : Q) : EdgeData :=
  {| attr_length := attr_length d;
     attr_speed_kph := attr_speed_kph d;
     attr_grade := attr_grade d;
     attr_travel_time_h := attr_travel_time_h d;
     attr_weight := Some w |}.

(** [G[u][v][0]["travel_time_h"] = t]. *)
Definition set_edge0_travel_time_h (G : MultiDiGraph) (u v : node) (t : Q)
  : MultiDiGraph :=
  {| nodes := nodes G;
     edges := map (fun e =>
                if joins u v e && Nat.eqb (key e) 0
                then {| src := src e; dst := dst e; key := key e;
                        data := set_travel_time_h (data e) t |}
                else e) (edges G) |}.

End Graph.

(** ** graph_builder.py: the synthetic Hamburg - Munich network *)

Module RoadNetwork.
Import Graph.

Definition city_nodes : list (node * (Q * Q)) :=   (* name, (lat, lon) *)
  [ ("Hamburg"%string, (535511 # 10000, 99937 # 10000));
    ("Hannover"%string, (523791 # 10000, 97596 # 10000));
    ("Magdeburg"%string, (521205 # 10000, 116276 # 10000));
    ("Erfurt"%string, (509848 # 10000, 110299 # 10000));
    ("Nuremberg"%string, (494521 # 10000, 110767 # 10000));
    ("Munich"%string, (481351 # 10000, 115820 # 10000)) ].

Definition city_edges : list (node * node * Q * Q) :=
  [ ("Hamburg"%string, "Hannover"%string, 150000, 100);
    ("Hannover"%string, "Magdeburg"%string, 120000, 100);
    ("Magdeburg"%string, "Erfurt"%string, 200000, 100);
    ("Erfurt"%string, "Nuremberg"%string, 230000, 100);
    ("Nuremberg"%string, "Munich"%string, 170000, 100);
    ("Hannover"%string, "Nuremberg"%string, 360000, 100) ].

(** [build_graph_with_chargers], on the empty graph of [__init__].  The speeds
    are the non-zero literals of [city_edges], so the division that computes
    [travel_time_h] does not raise. *)
Definition build_graph_with_chargers : MultiDiGraph :=
  let G1 := fold_left (fun G '(name, (lat, lon)) => add_node G name lon lat)
                      city_nodes empty in
  fold_left (fun G '(u, v, length_m, speed) =>
               set_edge0_travel_time_h (add_edge G u v length_m speed) u v
                 ((length_m / 1000) / speed))
            city_edges G1.

End RoadNetwork.

(** ** optimization_model.py: the weight-vector sweep *)

Module Optimization.
Import Graph.

Record ParetoSolution : Type := mkSolution {
  cost : Q;
  energy : Q;
  co2 : Q;
  path : list node
}.

(** The optimizer object: [self.G], and of [self.energy_model] the attribute
    read by [getattr(..., 'consumption_kwh_per_km', 1.45)].  [self.charger_mgr]
    is stored and never read. *)
Record MultiObjectiveOptimizer : Type := mkOptimizer {
  G : MultiDiGraph;
  energy_model : Energy.ElectricTruckModel
}.

(** The loop of [_path_metrics]; [total_m] is the accumulator. *)
Fixpoint path_total_m (G : MultiDiGraph) (total_m : Q) (path_nodes : list node) : Q :=
  match path_nodes with
  | u :: ((v :: _) as rest) =>
      match get_edge_data G u v with
      | None => path_total_m G total_m rest                     (* continue *)
      | Some [] => path_total_m G total_m rest
      | Some ((_, first) :: _) =>
          path_total_m G (total_m + get_default (attr_length first) 1000) rest
      end
  | _ => total_m
  end.

Definition _path_metrics (self : MultiObjectiveOptimizer) (path_nodes : list node)
  : Q * Q * Q :=
  let total_m := path_total_m (G self) 0 path_nodes in
  let km := total_m / 1000 in
  let energy := km * get_default (Energy.consumption_kwh_per_km (energy_model self))
                                 (145 # 100) in
  let cost := energy * (32 # 100) in
  let co2 := energy * (42 # 100) in
  (cost, energy, co2).

Definition weight_sets : list (Q * Q * Q) :=
  [ (1, 0, 0);
    (0, 1, 0);
    (0, 0, 1);
    (33 # 100, 33 # 100, 34 # 100);
    (5 # 10, 25 # 100, 25 # 100) ].

(** The body of the loop that assigns [data['weight']] on one edge. *)
Definition weighted_edge (w : Q * Q * Q) (e : Edge) : result Edge :=
  let '(w_time, w_energy, w_em) := w in
  let dist_km := get_default (attr_length (data e)) 1000 / 1000 in
  let speed := get_default (attr_speed_kph (data e)) 100 in
  time_h <- pydiv dist_km speed ;;
  let energy := dist_km * (145 # 100) in
  let em_kg := energy * (42 # 100) in
  Ok {| src := src e; dst := dst e; key := key e;
        data := set_weight (data e)
                  (w_time * time_h + w_energy * energy + w_em * em_kg) |}.

Fixpoint weighted_edges (w : Q * Q * Q) (es : list Edge) : result (list Edge) :=
  match es with
  | [] => Ok []
  | e :: es' =>
      e' <- weighted_edge w e ;;
      es'' <- weighted_edges w es' ;;
      Ok (e' :: es'')
  end.

(** [G2 = self.G.copy()] with the weights assigned. *)
Definition weighted_copy (w : Q * Q * Q) (G : MultiDiGraph) : result MultiDiGraph :=
  es <- weighted_edges w (edges G) ;;
  Ok {| nodes := nodes G; edges := es |}.

(** The dict [unique] of [run_nsga], keyed by [tuple(s.path)], in insertion
    order. *)
Definition paths_eqb (p q : list node) : bool :=
  if list_eq_dec string_dec p q then true else false.

Definition contains_key (unique : list (list node * ParetoSolution))
    (k : list node) : bool :=
  existsb (fun kv => paths_eqb (fst kv) k) unique.

Definition deduplicate (solutions : list ParetoSolution) : list ParetoSolution :=
  let unique :=
    fold_left (fun unique s =>
                 let key := path s in
                 if contains_key unique key then unique
                 else unique ++ [(key, s)])
              solutions [] in
  map snd unique.

Section Search.

(** [nx.shortest_path(G2, source, target, weight='weight')] of networkx, which
    returns a list of nodes or raises. *)
Variable shortest_path : MultiDiGraph -> node -> node -> result (list node).

(** One turn of the loop over [weight_sets]. *)
Definition candidate (self : MultiObjectiveOptimizer) (start_node end_node : node)
    (w : Q * Q * Q) : result ParetoSolution :=
  G2 <- weighted_copy w (G self) ;;
  let path := match shortest_path G2 start_node end_node with
              | Ok p => p
              | Raise _ => []                                   (* except Exception *)
              end in
  let '(cost, energy, co2) := _path_metrics self path in
  Ok {| cost := cost; energy := energy; co2 := co2; path := path |}.

Fixpoint candidates (self : MultiObjectiveOptimizer) (start_node end_node : node)
    (ws : list (Q * Q * Q)) : result (list ParetoSolution) :=
  match ws with
  | [] => Ok []
  | w :: ws' =>
      s <- candidate self start_node end_node w ;;
      ss <- candidates self start_node end_node ws' ;;
      Ok (s :: ss)
  end.

(** [run_nsga(start, end)]; [population] and [generations] are not read. *)
Definition run_nsga (self : MultiObjectiveOptimizer) (start end_ : node)
  : result (list ParetoSolution) :=
  let start_node := start in
  let end_node := end_ in
  solutions <- candidates self start_node end_node weight_sets ;;
  Ok (deduplicate solutions).

End Search.

End Optimization.

(** ** multiobjective_optimizer.py: one weighted shortest path *)

Module MultiObjective.
Import Graph.

Definition co2_intensity : Q := 420.

(** The local function [edge_weight] of [optimize_route]. *)
Definition edge_weight (w_time w_energy w_emissions : Q) (d : EdgeData) : result Q :=
  len <- getitem (attr_length d) ;;
  let dist_km := len / 1000 in
  speed_h <- getitem (attr_speed_kph d) ;;
  time_h <- pydiv dist_km speed_h ;;
  let energy_kwh := dist_km * (14 # 10) in
  let emission_kg := energy_kwh * co2_intensity / 1000 in
  Ok (w_time * time_h + w_energy * energy_kwh + w_emissions * emission_kg).

Fixpoint weighted_edges (w_time w_energy w_emissions : Q) (es : list Edge)
  : result (list Edge) :=
  match es with
  | [] => Ok []
  | e :: es' =>
      w <- edge_weight w_time w_energy w_emissions (data e) ;;
      es'' <- weighted_edges w_time w_energy w_emissions es' ;;
      Ok ({| src := src e; dst := dst e; key := key e;
             data := set_weight (data e) w |} :: es'')
  end.

Section Search.

Variable shortest_path : MultiDiGraph -> node -> node -> result (list node).

Definition optimize_route (graph : MultiDiGraph) (origin_node dest_node : node)
    (w_time w_energy w_emissions : Q) : result (list node) :=
  es <- weighted_edges w_time w_energy w_emissions (edges graph) ;;
  let G2 := {| nodes := nodes graph; edges := es |} in
  shortest_path G2 origin_node dest_node.

End Search.

End MultiObjective.

(** ** route_energy.py: energy and SOC profile of a route *)

Module RouteEnergy.
Import Graph.

Record Segment : Type := mkSegment {
  seg_u : node;
  seg_v : node;
  length_m : Q;
  energy_kwh : Q;
  soc_before : Q;
  soc_after : Q;
  speed_mps : Q;
  gradient : Q
}.

(** [graph.get_edge_data(u, v)[0]]. *)
Definition edge0 (graph : MultiDiGraph) (u v : node) : result EdgeData :=
  match get_edge_data graph u v with
  | None => Raise TypeError
  | Some d =>
      match find (fun kd => Nat.eqb (fst kd) 0) d with
      | Some kd => Ok (snd kd)
      | None => Raise KeyError
      end
  end.

(** The loop of [compute_route_energy]: [soc], [total_energy_kwh] and
    [segments] are its variables, [truck] the model object that
    [compute_edge_energy] updates. *)
Fixpoint route_loop (graph : MultiDiGraph) (truck : Energy.ElectricTruckModel)
    (soc total_energy_kwh : Q) (segments : list Segment) (path_nodes : list node)
  : result (list Segment * Q * Energy.ElectricTruckModel) :=
  match path_nodes with
  | u :: ((v :: _) as rest) =>
      edge <- edge0 graph u v ;;
      length_m <- getitem (attr_length edge) ;;
      kph <- getitem (attr_speed_kph edge) ;;
      let speed := kph * (1000 / 3600) in
      let gradient := get_default (attr_grade edge) 0 in
      et <- Energy.compute_edge_energy truck length_m speed gradient
                                       Energy.default_temp_c ;;
      let '(energy_kwh, truck') := et in
      soc_new <- Energy.soc_after_segment truck' soc energy_kwh ;;
      let seg := {| seg_u := u; seg_v := v; length_m := length_m;
                    energy_kwh := energy_kwh; soc_before := soc;
                    soc_after := soc_new; speed_mps := speed;
                    gradient := gradient |} in
      route_loop graph truck' soc_new (total_energy_kwh + energy_kwh)
                 (segments ++ [seg]) rest
  | _ => Ok (segments, total_energy_kwh, truck)
  end.

Definition default_initial_soc : Q := 90 # 100.

(** [RouteEnergyEvaluator.compute_route_energy(path_nodes, initial_soc)]: the
    pair returned, and the truck model after the calls. *)
Definition compute_route_energy (graph : MultiDiGraph)
    (truck : Energy.ElectricTruckModel) (path_nodes : list node) (initial_soc : Q)
  : result (list Segment * Q * Energy.ElectricTruckModel) :=
  route_loop graph truck initial_soc 0 [] path_nodes.

(** Some segment of the profile ends below [min_soc]. *)
Definition falls_below_min_soc (truck : Energy.ElectricTruckModel)
    (segments : list Segment) : bool :=
  existsb (fun seg => Qltb (soc_after seg) (Energy.min_soc truck)) segments.

End RouteEnergy.

(** ** A shortest-path function

    networkx is a library the repository calls; the sweep is defined over any
    function of its type.  [nx_shortest_path] is an executable instance, used
    to run the sweep on concrete graphs: it relaxes every edge as many times
    as the graph has nodes, reading the weight as [data.get('weight', 1)], and
    so finds a path of least total weight when the weights are not negative. *)

Module Nx.
Import Graph.

Definition Table : Type := list (node * (Q * list node)).

Fixpoint lookup (t : Table) (n : node) : option (Q * list node) :=
  match t with
  | [] => None
  | (m, v) :: t' => if String.eqb m n then Some v else lookup t' n
  end.

Fixpoint update (t : Table) (n : node) (v : Q * list node) : Table :=
  match t with
  | [] => [(n, v)]
  | (m, v') :: t' => if String.eqb m n then (m, v) :: t' else (m, v') :: update t' n v
  end.

Definition relax (t : Table) (e : Edge) : Table :=
  match lookup t (src e) with
  | None => t
  | Some (d, p) =>
      let nd := d + get_default (attr_weight (data e)) 1 in
      match lookup t (dst e) with
      | None => update t (dst e) (nd, p ++ [dst e])
      | Some (d', _) => if Qltb nd d' then update t (dst e) (nd, p ++ [dst e]) else t
      end
  end.

Fixpoint rounds (n : nat) (es : list Edge) (t : Table) : Table :=
  match n with
  | O => t
  | S n' => rounds n' es (fold_left relax es t)
  end.

Definition nx_shortest_path (G : MultiDiGraph) (source target : node)
  : result (list node) :=
  if negb (has_node G source) then Raise NodeNotFound
  else if negb (has_node G target) then Raise NodeNotFound
  else
    match lookup (rounds (List.length (nodes G)) (edges G) [(source, (0, [source]))])
                 target with
    | Some (_, p) => Ok p
    | None => Raise NetworkXNoPath
    end.

End Nx.

(** ** Notions used to state the properties of the charging model *)

Module ChargingStated.
Import Charging.

(** [charger_power_kw] is one of [valid_power_levels_kw], as the [isin] of
    [load_eafo_dataset] tests it. *)
Definition supported (self : ChargingStationManager) (charger_power_kw : Q) : bool :=
  existsb (Qeq_bool charger_power_kw) (valid_power_levels_kw self).

(** The hours of each phase as numbers, for a power that is not zero. *)
Definition cc_hours (self : ChargingStationManager) (soc1 soc2 p : Q) : Q :=
  if Qltb soc1 (cc_cutoff_soc self)
  then (pymin soc2 (cc_cutoff_soc self) - soc1) * battery_capacity_kwh self
       / (p * cc_efficiency self)
  else 0.

Definition cv_hours (self : ChargingStationManager) (soc1 soc2 p : Q) : Q :=
  if Qltb (cc_cutoff_soc self) soc2
  then (soc2 - pymax soc1 (cc_cutoff_soc self)) * battery_capacity_kwh self
       / (p * (40 # 100) * cv_efficiency self)
  else 0.

(** The claim of the specification that the time grows with the difference
    [soc_target - soc_initial], whatever the two sessions compared. *)
Definition monotone_in_soc_difference (self : ChargingStationManager) : Prop :=
  forall p a1 b1 a2 b2 t1 t2,
    b1 - a1 <= b2 - a2 ->
    charging_time_minutes self a1 b1 p = Ok t1 ->
    charging_time_minutes self a2 b2 p = Ok t2 ->
    t1 <= t2.

End ChargingStated.

(** ** Notions used to state the properties of the queries and the sweep *)

Module Stated.
Import Graph.

(** The route that one turn of the sweep keeps for the weight vector [w]. *)
Definition route_for
    (shortest_path : MultiDiGraph -> node -> node -> result (list node))
    (G : MultiDiGraph) (start_node end_node : node) (w : Q * Q * Q) : list node :=
  match Optimization.weighted_copy w G with
  | Ok G2 =>
      match shortest_path G2 start_node end_node with
      | Ok p => p
      | Raise _ => []
      end
  | Raise _ => []
  end.

(** A candidate carries the route of its weight vector and the metrics of
    that route. *)
Definition candidate_of
    (shortest_path : MultiDiGraph -> node -> node -> result (list node))
    (self : Optimization.MultiObjectiveOptimizer) (start_node end_node : node)
    (w : Q * Q * Q) (s : Optimization.ParetoSolution) : Prop :=
  Optimization.path s
  = route_for shortest_path (Optimization.G self) start_node end_node w /\
  (Optimization.cost s, Optimization.energy s, Optimization.co2 s)
  = Optimization._path_metrics self (Optimization.path s).

(** The speed that the sweep divides by is not zero on any edge. *)
Definition speeds_nonzero (G : MultiDiGraph) : Prop :=
  forall e, In e (edges G) -> ~ get_default (attr_speed_kph (data e)) 100 == 0.

(** The claim of the specification on the station query, with the distance
    measured as the code does (in degrees, 111 km to the degree): the stations
    returned are the loaded ones at distance at most [buffer_km] from some
    point of the route. *)
Definition closed_buffer_claim (self : Charging.ChargingStationManager)
    (path_nodes : list string) (buffer_km : Q) : Prop :=
  forall sts pts nearby,
    Charging.stations self = Some sts ->
    Charging.route_points (Charging.graph self) path_nodes = Ok pts ->
    Charging.get_candidate_stations_near_route self path_nodes buffer_km = Ok nearby ->
    forall s,
      In s nearby <->
      In s sts /\
      exists c, In c pts /\
        Charging.dist2 (Charging.geometry s) c
        <= (buffer_km / 111) * (buffer_km / 111).

(** What the dict [unique] satisfies all along the loop. *)
Record unique_ok (seen : list Optimization.ParetoSolution)
    (unique : list (list node * Optimization.ParetoSolution)) : Prop := {
  keys_distinct : NoDup (map fst unique);
  keys_are_paths : forall kv, In kv unique -> fst kv = Optimization.path (snd kv);
  values_seen : forall kv, In kv unique -> In (snd kv) seen;
  paths_kept : forall s, In s seen -> In (Optimization.path s) (map fst unique)
}.

End Stated.

(** ** Concrete inputs *)

Module Examples.
Import Graph.
Local Open Scope string_scope.

(** The truck of [main.py]. *)
Definition truck_main : Energy.ElectricTruckModel :=
  Energy.EnergyModel_init 42000 (102 # 10) (63 # 100) (65 # 10000) 600 (92 # 100).

(** The optimizer of [main.py] on the synthetic network. *)
Definition optimizer_main : Optimization.MultiObjectiveOptimizer :=
  {| Optimization.G := RoadNetwork.build_graph_with_chargers;
     Optimization.energy_model := truck_main |}.

(** Two towns joined from B to A only: there is no path from A to B. *)
Definition one_way : MultiDiGraph :=
  add_edge (add_node (add_node empty "A" 10 50) "B" 11 50) "B" "A" 111000 100.

Definition optimizer_one_way : Optimization.MultiObjectiveOptimizer :=
  {| Optimization.G := one_way; Optimization.energy_model := truck_main |}.

(** A catalog of one 350 kW station, one degree east of the only node. *)
Definition station_east : Charging.Station :=
  {| Charging.station_name := "East";
     Charging.Power_kW := 350;
     Charging.Longitude := 11;
     Charging.Latitude := 50 |}.

Definition manager_one_node : Charging.ChargingStationManager :=
  Charging.set_stations (Charging.init (Some [("A", (10, 50))])) [station_east].

End Examples.

(** * The rest of the modules *)

(** ** charging_integration.py: loading and snapping the stations *)

Module ChargingData.
Import Charging.

(** A row of the table that [pd.read_csv] returns; a missing cell (NaN) is
    [None]. *)
Record Row : Type := mkRow {
  row_Country : option string;
  row_Power_kW : option Q;
  row_Latitude : option Q;
  row_Longitude : option Q;
  row_StationName : string
}.

Definition lower_ascii (c : Ascii.ascii) : Ascii.ascii :=
  let n := Ascii.nat_of_ascii c in
  if Nat.leb 65 n && Nat.leb n 90 then Ascii.ascii_of_nat (n + 32) else c.

Fixpoint lower (s : string) : string :=
  match s with
  | EmptyString => EmptyString
  | String c s' => String (lower_ascii c) (lower s')
  end.

(** [pat] occurs in [s]. *)
Fixpoint occurs (pat s : string) : bool :=
  String.prefix pat s ||
  match s with
  | EmptyString => false
  | String _ s' => occurs pat s'
  end.

(** [df["Country"].str.contains("Germany", case=False, na=False)] on one
    row. *)
Definition country_is_germany (r : Row) : bool :=
  match row_Country r with
  | Some c => occurs (lower "Germany") (lower c)
  | None => false
  end.

(** [df["Power_kW"] >= 150] on one row; a comparison with NaN is false. *)
Definition power_at_least_150 (r : Row) : bool :=
  match row_Power_kW r with
  | Some p => Qleb 150 p
  | None => false
  end.

(** [df["Power_kW"].isin(self.valid_power_levels_kw)] on one row. *)
Definition power_isin (levels : list Q) (r : Row) : bool :=
  match row_Power_kW r with
  | Some p => existsb (Qeq_bool p) levels
  | None => false
  end.

(** [df.dropna(subset=["Latitude", "Longitude"])] keeps the row. *)
Definition has_coordinates (r : Row) : bool :=
  match row_Latitude r, row_Longitude r with
  | Some _, Some _ => true
  | _, _ => false
  end.

(** The row of the GeoDataFrame, with its geometry
    [points_from_xy(df.Longitude, df.Latitude)]. *)
Definition to_station (r : Row) : option Station :=
  match row_Power_kW r, row_Longitude r, row_Latitude r with
  | Some p, Some lon, Some lat =>
      Some {| station_name := row_StationName r;
              Power_kW := p;
              Longitude := lon;
              Latitude := lat |}
  | _, _, _ => None
  end.

Fixpoint to_stations (df : list Row) : list Station :=
  match df with
  | [] => []
  | r :: df' =>
      match to_station r with
      | Some s => s :: to_stations df'
      | None => to_stations df'
      end
  end.

(** The filters of [load_eafo_dataset], in the order of the source, on the
    table read from the file. *)
Definition filtered_rows (self : ChargingStationManager) (df : list Row) : list Row :=
  let df1 := filter country_is_germany df in
  let df2 := filter power_at_least_150 df1 in
  let df3 := filter (power_isin (valid_power_levels_kw self)) df2 in
  let df4 := filter has_coordinates df3 in
  df4.

(** [load_eafo_dataset], given the table read from [csv_path]: the manager
    after the call and the table returned. *)
Definition load_eafo_dataset (self : ChargingStationManager) (df : list Row)
  : ChargingStationManager * list Station :=
  let gdf := to_stations (filtered_rows self df) in
  (set_stations self gdf, gdf).

(** [self.graph = graph], the assignment of the wrapper in
    charging_module.py. *)
Definition set_graph (self : ChargingStationManager) (g : option NodeTable)
  : ChargingStationManager :=
  {| graph := g;
     stations := stations self;
     valid_power_levels_kw := valid_power_levels_kw self;
     battery_capacity_kwh := battery_capacity_kwh self;
     max_charge_power_kw := max_charge_power_kw self;
     cc_cutoff_soc := cc_cutoff_soc self;
     cc_efficiency := cc_efficiency self;
     cv_efficiency := cv_efficiency self |}.

Section Snap.

(** [ox.nearest_nodes(graph, x, y)] of osmnx. *)
Variable nearest_nodes : option NodeTable -> Q -> Q -> result string.

(** The loop of [snap_stations_to_graph] that fills [station_nodes]. *)
Fixpoint station_nodes (g : option NodeTable) (sts : list Station)
  : result (list string) :=
  match sts with
  | [] => Ok []
  | row :: sts' =>
      node_id <- nearest_nodes g (Longitude row) (Latitude row) ;;
      ids <- station_nodes g sts' ;;
      Ok (node_id :: ids)
  end.

(** [snap_stations_to_graph]: the table returned, each station with its
    [node_id].  No code reads the new column, and the manager keeps the
    stations it had. *)
Definition snap_stations_to_graph (self : ChargingStationManager)
  : result (list (Station * string)) :=
  match stations self with
  | None => Raise ValueError
  | Some sts =>
      ids <- station_nodes (graph self) sts ;;
      Ok (combine sts ids)
  end.

End Snap.

End ChargingData.

(** ** charging_module.py: the wrapper around the station manager *)

Module ChargingModule.
Import Charging ChargingData.

Record ChargingManager : Type := mkWrapper {
  _mgr : option ChargingStationManager
}.

Definition init : ChargingManager := {| _mgr := None |}.

(** [load_eafo_dataset], given the table read from [csv_path]: a new manager
    built with [graph=None] replaces the one held. *)
Definition load_eafo_dataset (self : ChargingManager) (df : list Row)
  : ChargingManager * list Station :=
  let mgr := Charging.init None in
  let '(mgr', gdf) := ChargingData.load_eafo_dataset mgr df in
  ({| _mgr := Some mgr' |}, gdf).

Section Snap.

Variable nearest_nodes : option NodeTable -> Q -> Q -> result string.

(** [snap_stations(graph)]: the wrapper after the call (the assignment
    happens before the call that may raise) and the outcome. *)
Definition snap_stations (self : ChargingManager) (g : NodeTable)
  : ChargingManager * result (list (Station * string)) :=
  let mgr := match _mgr self with
             | None => Charging.init (Some g)
             | Some m => set_graph m (Some g)
             end in
  ({| _mgr := Some mgr |}, snap_stations_to_graph nearest_nodes mgr).

End Snap.

(** [self._mgr.method(...)] when [_mgr] may be [None]. *)
Definition the_mgr (self : ChargingManager) : result ChargingStationManager :=
  match _mgr self with
  | Some m => Ok m
  | None => Raise AttributeError
  end.

Definition get_candidate_stations_near_route (self : ChargingManager)
    (path_nodes : list string) (buffer_km : Q) : result (list Station) :=
  m <- the_mgr self ;;
  Charging.get_candidate_stations_near_route m path_nodes buffer_km.

Definition simulate_charging_event (self : ChargingManager)
    (soc_initial target_soc station_power_kw : Q) : result ChargingEvent :=
  m <- the_mgr self ;;
  Charging.simulate_charging_event m soc_initial target_soc station_power_kw.

End ChargingModule.

(** ** energy_model.py: [EnergyModel.compute_route_energy] *)

Module EnergyRoute.
Import Graph.

(** The loop over the edges of the route when a graph is given. *)
Fixpoint route_total_m (graph : MultiDiGraph) (total_m : Q) (path_nodes : list node) : Q :=
  match path_nodes with
  | u :: ((v :: _) as rest) =>
      match get_edge_data graph u v with
      | None => route_total_m graph total_m rest                  (* continue *)
      | Some [] => route_total_m graph total_m rest
      | Some ((_, first) :: _) =>
          route_total_m graph (total_m + get_default (attr_length first) 1000) rest
      end
  | _ => total_m
  end.

(** [max(1, len(path_nodes) - 1)], on Python integers. *)
Definition hops (path_nodes : list node) : Z :=
  Z.max 1 (Z.of_nat (List.length path_nodes) - 1).

(** [compute_route_energy(path_nodes, graph=None)]: the pair
    [(km, energy)].  The attribute [consumption_kwh_per_km] exists on an
    [EnergyModel] only. *)
Definition compute_route_energy (self : Energy.ElectricTruckModel)
    (path_nodes : list node) (graph : option MultiDiGraph) : result (Q * Q) :=
  let total_m := match graph with
                 | Some g => route_total_m g 0 path_nodes
                 | None => 1000 * inject_Z (hops path_nodes)
                 end in
  let km := total_m / 1000 in
  consumption <- match Energy.consumption_kwh_per_km self with
                 | Some c => Ok c
                 | None => Raise AttributeError
                 end ;;
  let energy := km * consumption in
  Ok (km, energy).

End EnergyRoute.

(** ** multiobjective_optimizer.py: [compute_weighted_cost] *)

Module WeightedCost.
Import Graph.

(** The loop that sums [edge["travel_time_h"]]. *)
Fixpoint total_time_loop (graph : MultiDiGraph) (total_time : Q)
    (path_nodes : list node) : result Q :=
  match path_nodes with
  | u :: ((v :: _) as rest) =>
      edge <- RouteEnergy.edge0 graph u v ;;
      t <- getitem (attr_travel_time_h edge) ;;
      total_time_loop graph (total_time + t) rest
  | _ => Ok total_time
  end.

(** [self.energy_eval]: a [RouteEnergyEvaluator] with its graph and truck. *)
Record RouteEnergyEvaluator : Type := mkEvaluator {
  ev_graph : MultiDiGraph;
  ev_truck : Energy.ElectricTruckModel
}.

(** [compute_weighted_cost]: the cost, and the truck model of the evaluator
    after the call. *)
Definition compute_weighted_cost (graph : MultiDiGraph)
    (energy_eval : RouteEnergyEvaluator) (path_nodes : list node)
    (w_time w_energy w_emissions : Q)
  : result (Q * Energy.ElectricTruckModel) :=
  total_time <- total_time_loop graph 0 path_nodes ;;
  r <- RouteEnergy.compute_route_energy (ev_graph energy_eval)
         (ev_truck energy_eval) path_nodes RouteEnergy.default_initial_soc ;;
  let '(_, energy_kwh, truck') := r in
  let emissions := energy_kwh * MultiObjective.co2_intensity / 1000 in
  let cost := w_time * total_time + w_energy * energy_kwh
              + w_emissions * emissions in
  Ok (cost, truck').

End WeightedCost.

(** ** graph_processor.py: [add_travel_time_weights] *)

Module GraphProcessor.
Import Graph.

(** The body of the loop on one edge. *)
Definition with_travel_time (e : Edge) : result Edge :=
  let dist_km := get_default (attr_length (data e)) 1 / 1000 in
  speed_h <- getitem (attr_speed_kph (data e)) ;;
  time_h <- pydiv dist_km speed_h ;;
  Ok {| src := src e; dst := dst e; key := key e;
        data := set_travel_time_h (data e) time_h |}.

Fixpoint with_travel_times (es : list Edge) : result (list Edge) :=
  match es with
  | [] => Ok []
  | e :: es' =>
      e' <- with_travel_time e ;;
      es'' <- with_travel_times es' ;;
      Ok (e' :: es'')
  end.

(** [add_travel_time_weights] on [self.graph]: the graph after the loop. *)
Definition add_travel_time_weights (graph : MultiDiGraph) : result MultiDiGraph :=
  es <- with_travel_times (edges graph) ;;
  Ok {| nodes := nodes graph; edges := es |}.

End GraphProcessor.

(** ** graph_builder.py: [get_city_coordinates] *)

Module RoadNetworkQueries.
Import Graph.

Fixpoint nodes_get (ns : list (node * (Q * Q))) (name : node) : option (Q * Q) :=
  match ns with
  | [] => None
  | (n, xy) :: ns' => if String.eqb n name then Some xy else nodes_get ns' name
  end.

(** [get_city_coordinates(city_name)]: [(lat, lon)], or [None]. *)
Definition get_city_coordinates (G : MultiDiGraph) (city_name : node)
  : option (Q * Q) :=
  match nodes_get (nodes G) city_name with
  | Some (x, y) => Some (y, x)
  | None => None
  end.

End RoadNetworkQueries.

(** ** More concrete inputs *)

Module MoreExamples.
Import Graph.
Local Open Scope string_scope.

(** A small station table: rows that pass the filters of the loader and rows
    that each fail one of them. *)
Definition sample_table : list ChargingData.Row :=
  [ ChargingData.mkRow (Some "Germany") (Some 350) (Some 50) (Some 11) "East";
    ChargingData.mkRow (Some "GERMANY (DE)") (Some 150) (Some (505 # 10)) (Some 10) "North";
    ChargingData.mkRow (Some "France") (Some 350) (Some 48) (Some 2) "Paris";
    ChargingData.mkRow (Some "Germany") (Some 200) (Some 50) (Some 10) "Odd";
    ChargingData.mkRow (Some "Germany") (Some 50) (Some 50) (Some 10) "Slow";
    ChargingData.mkRow (Some "germany") (Some 750) None (Some 10) "Nowhere";
    ChargingData.mkRow None (Some 350) (Some 50) (Some 10) "Unknown" ].

Definition one_node : Charging.NodeTable := [("A", (10, 50))].

(** [ox.nearest_nodes] on a table with a node: the first node, whatever the
    point. *)
Definition first_node (g : option Charging.NodeTable) (x y : Q) : result string :=
  match g with
  | Some ((n, _) :: _) => Ok n
  | _ => Raise ValueError
  end.

(** A line of three towns, 100 km apart, each edge with its travel time. *)
Definition line3 : MultiDiGraph :=
  let G0 := add_node (add_node (add_node empty "A" 10 50) "B" 11 50) "C" 12 50 in
  let G1 := set_edge0_travel_time_h (add_edge G0 "A" "B" 100000 100) "A" "B" 1 in
  set_edge0_travel_time_h (add_edge G1 "B" "C" 100000 80) "B" "C" (125 # 100).

(** The same line with a third edge whose speed is zero. *)
Definition line3_stopped : MultiDiGraph :=
  add_edge line3 "C" "A" 1000 0.

(** A line of three towns ten metres apart. *)
Definition short_line : MultiDiGraph :=
  let G0 := add_node (add_node (add_node empty "A" 10 50) "B" 11 50) "C" 12 50 in
  add_edge (add_edge G0 "A" "B" 10 100) "B" "C" 10 100.

End MoreExamples.

(** ** Notions used to state the further properties *)

Module MoreStated.
Import Graph.

(** The total power [P_total] of [segment_energy_kwh], in watts. *)
Definition P_total (self : Energy.ElectricTruckModel) (avg_speed_mps gradient : Q) : Q :=
  Energy.rolling_resistance_power self avg_speed_mps
  + Energy.aerodynamic_drag_power self avg_speed_mps
  + Energy.climbing_power self gradient avg_speed_mps
  + Energy.aux_load_kw self * 1000.

(** The value [E_mech_wh] of [segment_energy_kwh]. *)
Definition E_mech_wh (self : Energy.ElectricTruckModel)
    (distance_m avg_speed_mps gradient : Q) : Q :=
  P_total self avg_speed_mps gradient * (distance_m / avg_speed_mps) / 3600 * 1000.

(** The sum of the energies of the segments of a profile. *)
Definition sum_energy (segments : list RouteEnergy.Segment) : Q :=
  fold_right (fun seg acc => RouteEnergy.energy_kwh seg + acc) 0 segments.

(** The segments of a profile chain: each starts at the SOC where the one
    before it ended, the first at [soc]. *)
Fixpoint chained (soc : Q) (segments : list RouteEnergy.Segment) : Prop :=
  match segments with
  | [] => True
  | seg :: rest =>
      RouteEnergy.soc_before seg = soc /\ chained (RouteEnergy.soc_after seg) rest
  end.

(** The SOC at the end of a profile that starts at [soc]. *)
Definition final_soc (soc : Q) (segments : list RouteEnergy.Segment) : Q :=
  last (map RouteEnergy.soc_after segments) soc.

(** Every edge carries a speed that is not zero and, where required, a
    length. *)
Definition edge_ready (e : Edge) : Prop :=
  exists len speed,
    attr_length (data e) = Some len /\ attr_speed_kph (data e) = Some speed /\
    ~ speed == 0.

(** The segments and the total of the outcome of [compute_route_energy],
    without the truck model. *)
Definition profile_of
    (r : result (list RouteEnergy.Segment * Q * Energy.ElectricTruckModel))
  : result (list RouteEnergy.Segment * Q) :=
  match r with
  | Ok (segments, total, _) => Ok (segments, total)
  | Raise e => Raise e
  end.

(** An edge on which [optimize_route] cannot compute a weight. *)
Definition edge_unready (e : Edge) : Prop :=
  attr_length (data e) = None \/ attr_speed_kph (data e) = None \/
  exists speed, attr_speed_kph (data e) = Some speed /\ speed == 0.

(** What a segment of a profile records of the edge it was computed from. *)
Definition segment_of_edge (graph : MultiDiGraph) (truck : Energy.ElectricTruckModel)
    (seg : RouteEnergy.Segment) : Prop :=
  exists edge kph base,
    RouteEnergy.edge0 graph (RouteEnergy.seg_u seg) (RouteEnergy.seg_v seg) = Ok edge /\
    attr_length edge = Some (RouteEnergy.length_m seg) /\
    attr_speed_kph edge = Some kph /\ ~ kph == 0 /\
    RouteEnergy.speed_mps seg = kph * (1000 / 3600) /\
    RouteEnergy.gradient seg = get_default (attr_grade edge) 0 /\
    Energy.segment_energy_kwh truck (RouteEnergy.length_m seg)
      (RouteEnergy.speed_mps seg) (RouteEnergy.gradient seg) = Ok base /\
    RouteEnergy.energy_kwh seg == base.

End MoreStated.

(** * Properties *)

(** ** Tests and divisions *)

Lemma Qltb_lt (a b : Q) : Qltb a b = true <-> a < b.
Proof.
  unfold Qltb. rewrite negb_true_iff.
  split; intro H.
  - apply Qnot_le_lt. intro Hle. apply Qle_bool_iff in Hle. congruence.
  - destruct (Qle_bool b a) eqn:E; [|reflexivity].
    apply Qle_bool_iff in E. exfalso. exact (Qlt_not_le _ _ H E).
Qed.

Lemma Qltb_ge (a b : Q) : Qltb a b = false <-> b <= a.
Proof.
  unfold Qltb. rewrite negb_false_iff. apply Qle_bool_iff.
Qed.

Lemma Qleb_le (a b : Q) : Qleb a b = true <-> a <= b.
Proof. apply Qle_bool_iff. Qed.

Lemma Qleb_gt (a b : Q) : Qleb a b = false <-> b < a.
Proof.
  unfold Qleb. split; intro H.
  - apply Qnot_le_lt. intro Hle. apply Qle_bool_iff in Hle. congruence.
  - destruct (Qle_bool a b) eqn:E; [|reflexivity].
    apply Qle_bool_iff in E. exfalso. exact (Qlt_not_le _ _ H E).
Qed.

Lemma pydiv_nonzero (x y : Q) : ~ y == 0 -> pydiv x y = Ok (x / y).
Proof.
  intro H. unfold pydiv, Qis_zero.
  destruct (Qeq_bool y 0) eqn:E; [|reflexivity].
  apply Qeq_bool_iff in E. contradiction.
Qed.

Lemma pydiv_zero (x y : Q) : y == 0 -> pydiv x y = Raise ZeroDivisionError.
Proof.
  intro H. unfold pydiv, Qis_zero.
  apply Qeq_bool_iff in H. now rewrite H.
Qed.

Ltac split_tests :=
  repeat match goal with
  | |- context [Qltb ?a ?b] =>
      let E := fresh "E" in
      destruct (Qltb a b) eqn:E;
      [apply Qltb_lt in E | apply Qltb_ge in E]
  | |- context [Qleb ?a ?b] =>
      let E := fresh "E" in
      destruct (Qleb a b) eqn:E;
      [apply Qleb_le in E | apply Qleb_gt in E]
  end.

(** ** The charging model *)

Module ChargingProps.
Import Charging ChargingStated.

Section Manager.

Variable self : ChargingStationManager.
Hypothesis capacity_pos : 0 < battery_capacity_kwh self.
Hypothesis cc_efficiency_pos : 0 < cc_efficiency self.
Hypothesis cv_efficiency_pos : 0 < cv_efficiency self.

Lemma cc_divisor_nonzero (p : Q) : ~ p == 0 -> ~ p * cc_efficiency self == 0.
Proof.
  intros Hp H. apply Qmult_integral in H. destruct H as [H | H]; [tauto|].
  rewrite H in cc_efficiency_pos. now apply Qlt_irrefl in cc_efficiency_pos.
Qed.

Lemma cv_divisor_nonzero (p : Q) :
  ~ p == 0 -> ~ p * (40 # 100) * cv_efficiency self == 0.
Proof.
  intros Hp H. apply Qmult_integral in H. destruct H as [H | H].
  - apply Qmult_integral in H. destruct H as [H | H]; [tauto | discriminate].
  - rewrite H in cv_efficiency_pos. now apply Qlt_irrefl in cv_efficiency_pos.
Qed.

Lemma time_hours_cc_ok (a b p : Q) :
  ~ p == 0 -> time_hours_cc self a b p = Ok (cc_hours self a b p).
Proof.
  intro Hp. unfold time_hours_cc, cc_hours.
  destruct (Qltb a (cc_cutoff_soc self)); [|reflexivity].
  apply pydiv_nonzero, cc_divisor_nonzero, Hp.
Qed.

Lemma time_hours_cv_ok (a b p : Q) :
  ~ p == 0 -> time_hours_cv self a b p = Ok (cv_hours self a b p).
Proof.
  intro Hp. unfold time_hours_cv, cv_hours.
  destruct (Qltb (cc_cutoff_soc self) b); [|reflexivity].
  apply pydiv_nonzero, cv_divisor_nonzero, Hp.
Qed.

(** For a power that is not zero the function returns, and what. *)
Lemma charging_time_minutes_ok (a b p : Q) :
  ~ p == 0 ->
  charging_time_minutes self a b p =
  Ok (if Qleb b a then 0 else (cc_hours self a b p + cv_hours self a b p) * 60).
Proof.
  intro Hp. unfold charging_time_minutes.
  destruct (Qleb b a); [reflexivity|].
  rewrite time_hours_cc_ok, time_hours_cv_ok by exact Hp. reflexivity.
Qed.

Lemma charging_time_minutes_noop (a b p : Q) :
  b <= a -> charging_time_minutes self a b p = Ok 0.
Proof.
  intro H. unfold charging_time_minutes.
  apply Qleb_le in H. now rewrite H.
Qed.

(** Each phase costs a time proportional to the SOC span it covers. *)
Lemma cc_hours_span (a b p : Q) :
  ~ p == 0 ->
  cc_hours self a b p ==
  (if Qltb a (cc_cutoff_soc self) then pymin b (cc_cutoff_soc self) - a else 0)
  * (battery_capacity_kwh self / (p * cc_efficiency self)).
Proof.
  intro Hp. unfold cc_hours.
  destruct (Qltb a (cc_cutoff_soc self)).
  - field. split; [|exact Hp].
    intro H. rewrite H in cc_efficiency_pos.
    now apply Qlt_irrefl in cc_efficiency_pos.
  - ring.
Qed.

Lemma cv_hours_span (a b p : Q) :
  ~ p == 0 ->
  cv_hours self a b p ==
  (if Qltb (cc_cutoff_soc self) b then b - pymax a (cc_cutoff_soc self) else 0)
  * (battery_capacity_kwh self / (p * (40 # 100) * cv_efficiency self)).
Proof.
  intro Hp. unfold cv_hours.
  destruct (Qltb (cc_cutoff_soc self) b).
  - field. split; [|exact Hp].
    intro H. rewrite H in cv_efficiency_pos.
    now apply Qlt_irrefl in cv_efficiency_pos.
  - ring.
Qed.

Lemma cc_rate_pos (p : Q) :
  0 < p -> 0 < battery_capacity_kwh self / (p * cc_efficiency self).
Proof.
  intro Hp. apply Qlt_shift_div_l.
  - apply Qmult_lt_0_compat; assumption.
  - rewrite Qmult_0_l. exact capacity_pos.
Qed.

Lemma cv_rate_pos (p : Q) :
  0 < p -> 0 < battery_capacity_kwh self / (p * (40 # 100) * cv_efficiency self).
Proof.
  intro Hp. apply Qlt_shift_div_l.
  - repeat apply Qmult_lt_0_compat; try assumption. reflexivity.
  - rewrite Qmult_0_l. exact capacity_pos.
Qed.

(** The time of a session that covers another one is at least as long. *)
Lemma minutes_monotone (p a1 b1 a2 b2 : Q) :
  0 < p -> a2 <= a1 -> b1 <= b2 ->
  (if Qleb b1 a1 then 0 else (cc_hours self a1 b1 p + cv_hours self a1 b1 p) * 60)
  <= (if Qleb b2 a2 then 0 else (cc_hours self a2 b2 p + cv_hours self a2 b2 p) * 60).
Proof.
  intros Hp Ha Hb.
  assert (Hp0 : ~ p == 0) by (intro H; rewrite H in Hp; now apply Qlt_irrefl in Hp).
  pose proof (cc_hours_span a1 b1 p Hp0) as C1.
  pose proof (cc_hours_span a2 b2 p Hp0) as C2.
  pose proof (cv_hours_span a1 b1 p Hp0) as V1.
  pose proof (cv_hours_span a2 b2 p Hp0) as V2.
  pose proof (cc_rate_pos p Hp) as K1.
  pose proof (cv_rate_pos p Hp) as K2.
  revert C1 C2 V1 V2 K1 K2.
  generalize (battery_capacity_kwh self / (p * cc_efficiency self)).
  generalize (battery_capacity_kwh self / (p * (40 # 100) * cv_efficiency self)).
  generalize (cc_hours self a1 b1 p) (cc_hours self a2 b2 p)
             (cv_hours self a1 b1 p) (cv_hours self a2 b2 p).
  intros c1 c2 v1 v2 k2 k1. unfold pymin, pymax.
  split_tests; intros C1 C2 V1 V2 K1 K2; try lra; nra.
Qed.

End Manager.

Lemma init_capacity_pos g : 0 < battery_capacity_kwh (init g).
Proof. reflexivity. Qed.

Lemma init_cc_efficiency_pos g : 0 < cc_efficiency (init g).
Proof. reflexivity. Qed.

Lemma init_cv_efficiency_pos g : 0 < cv_efficiency (init g).
Proof. reflexivity. Qed.

(** C2, in the form that holds of the code. With the default battery
    parameters, charging from 0.20 to 0.80 at 350 kW spends no time in the CV
    phase, and the minutes returned are (0.60 x 600) / (350 x 0.93) x 60 =
    14400/217, that is 66.36 to two decimals. *)
Theorem C2_cc_only_time_20_to_80_at_350 (g : option NodeTable) :
  time_hours_cv (init g) (20 # 100) (80 # 100) 350 = Ok 0 /\
  exists t,
    charging_time_minutes (init g) (20 # 100) (80 # 100) 350 = Ok t /\
    t == ((60 # 100) * 600) / (350 * (93 # 100)) * 60 /\
    t == 14400 # 217 /\
    Qabs (t - (6636 # 100)) <= 5 # 1000.
Proof.
  split; [reflexivity|].
  eexists. split; [vm_compute; reflexivity|].
  repeat split; vm_compute; congruence.
Qed.

(** C2, in the form of the specification: the minutes returned are the value
    of the formula, and that value is not 59.2 to one decimal. *)
Lemma C2_counterexample_not_59_2 :
  exists t,
    charging_time_minutes (init None) (20 # 100) (80 # 100) 350 = Ok t /\
    t == ((60 # 100) * 600) / (350 * (93 # 100)) * 60 /\
    ~ Qabs (t - (592 # 10)) <= 5 # 100.
Proof.
  eexists. split; [vm_compute; reflexivity|].
  split; [vm_compute; reflexivity|].
  vm_compute. intro H. apply H. reflexivity.
Qed.

(** C7, in the form that holds of the code. A session whose target is not
    above its initial SOC takes exactly zero minutes, whatever the power. For
    a positive power, a session that starts no later (in SOC) and ends no
    earlier than another one takes at least as long: the time does not
    decrease when the target is raised with the initial SOC fixed, nor when
    the initial SOC is lowered with the target fixed. *)
Theorem C7_zero_and_monotone_in_covered_span
    (self : ChargingStationManager) (p a1 b1 a2 b2 : Q) :
  0 < battery_capacity_kwh self ->
  0 < cc_efficiency self ->
  0 < cv_efficiency self ->
  (b1 <= a1 -> charging_time_minutes self a1 b1 p = Ok 0) /\
  (0 < p -> a2 <= a1 -> b1 <= b2 ->
   exists t1 t2,
     charging_time_minutes self a1 b1 p = Ok t1 /\
     charging_time_minutes self a2 b2 p = Ok t2 /\
     t1 <= t2).
Proof.
  intros Hcap Hcc Hcv. split.
  - apply charging_time_minutes_noop.
  - intros Hp Ha Hb.
    assert (Hp0 : ~ p == 0) by (intro H; rewrite H in Hp; now apply Qlt_irrefl in Hp).
    do 2 eexists.
    split; [apply charging_time_minutes_ok; assumption|].
    split; [apply charging_time_minutes_ok; assumption|].
    apply minutes_monotone; assumption.
Qed.

(** An instance: a no-op session, and the session 0.30 -> 0.70 inside
    0.20 -> 0.90, at 350 kW with the default battery parameters. *)
Lemma C7_witness :
  charging_time_minutes (init None) (50 # 100) (40 # 100) 350 = Ok 0 /\
  exists t1 t2,
    charging_time_minutes (init None) (30 # 100) (70 # 100) 350 = Ok t1 /\
    charging_time_minutes (init None) (20 # 100) (90 # 100) 350 = Ok t2 /\
    t1 <= t2.
Proof.
  split.
  - apply (C7_zero_and_monotone_in_covered_span (init None) 350
             (50 # 100) (40 # 100) (50 # 100) (40 # 100));
      try reflexivity. vm_compute. discriminate.
  - apply (C7_zero_and_monotone_in_covered_span (init None) 350
             (30 # 100) (70 # 100) (20 # 100) (90 # 100));
      try reflexivity; vm_compute; discriminate.
Defined.

(** C7, in the form of the specification: at 350 kW the session 0.85 -> 0.95
    (difference 0.10, all of it in the CV phase) takes longer than the session
    0.20 -> 0.40 (difference 0.20, all of it in the CC phase). *)
Lemma C7_counterexample_not_monotone_in_difference :
  ~ monotone_in_soc_difference (init None).
Proof.
  intro H.
  specialize (H 350 (85 # 100) (95 # 100) (20 # 100) (40 # 100)).
  vm_compute in H.
  apply (H _ _ (fun e => match e with end) eq_refl eq_refl).
  reflexivity.
Qed.

(** C8, in the form that holds of the code. [charging_time_minutes] does not
    look at [valid_power_levels_kw]: with the default battery parameters a
    power outside the list, if it is not zero, is accepted and used as it is.
    The call returns, and the minutes are inversely proportional to the power
    given, so the power is not clamped to a supported level. *)
Theorem C8_unsupported_power_is_used_as_given
    (g : option NodeTable) (a b p : Q) :
  supported (init g) p = false ->
  ~ p == 0 ->
  exists t,
    charging_time_minutes (init g) a b p = Ok t /\
    forall q, ~ q == 0 ->
      exists t', charging_time_minutes (init g) a b q = Ok t' /\ t * p == t' * q.
Proof.
  intros _ Hp.
  pose proof (init_cc_efficiency_pos g) as Hcc.
  pose proof (init_cv_efficiency_pos g) as Hcv.
  eexists. split; [apply charging_time_minutes_ok; assumption|].
  intros q Hq. eexists. split; [apply charging_time_minutes_ok; assumption|].
  destruct (Qleb b a); [ring|].
  rewrite !cc_hours_span, !cv_hours_span by assumption.
  field. repeat split; try assumption; discriminate.
Qed.

(** An instance: 200 kW, which is not a supported level. *)
Lemma C8_witness :
  exists t,
    charging_time_minutes (init None) (20 # 100) (80 # 100) 200 = Ok t /\
    forall q, ~ q == 0 ->
      exists t', charging_time_minutes (init None) (20 # 100) (80 # 100) q = Ok t'
                 /\ t * 200 == t' * q.
Proof.
  apply (C8_unsupported_power_is_used_as_given None (20 # 100) (80 # 100) 200).
  - reflexivity.
  - discriminate.
Defined.

(** C8, in the form of the specification: 200 kW is not a supported level, and
    the call returns a time, 116.13 minutes to two decimals, instead of
    failing. *)
Lemma C8_counterexample_200_kw_accepted :
  supported (init None) 200 = false /\
  exists t,
    charging_time_minutes (init None) (20 # 100) (80 # 100) 200 = Ok t /\
    t == 3600 # 31.
Proof.
  split; [reflexivity|].
  eexists. split; vm_compute; reflexivity.
Qed.

(** C10, in the form that holds of the code. With the default battery
    parameters, whenever the station power is not zero or the target is not
    above the initial SOC, [simulate_charging_event] returns, with [soc_final]
    the target requested and [energy_added_kwh] the product (target - initial)
    x capacity; when the target is below the initial SOC the minutes are zero
    and the energy is strictly negative. *)
Theorem C10_simulate_charging_event_returns
    (g : option NodeTable) (soc_initial target_soc station_power_kw : Q) :
  ~ station_power_kw == 0 \/ target_soc <= soc_initial ->
  exists ev,
    simulate_charging_event (init g) soc_initial target_soc station_power_kw = Ok ev /\
    soc_final ev = target_soc /\
    energy_added_kwh ev = (target_soc - soc_initial) * battery_capacity_kwh (init g) /\
    (target_soc < soc_initial ->
     charging_minutes ev = 0 /\ energy_added_kwh ev < 0).
Proof.
  intros H. unfold simulate_charging_event.
  destruct (Qleb target_soc soc_initial) eqn:E.
  - apply Qleb_le in E.
    rewrite charging_time_minutes_noop by exact E. cbn.
    eexists. split; [reflexivity|]. cbn. repeat split. lra.
  - apply Qleb_gt in E. destruct H as [H | H]; [|lra].
    rewrite charging_time_minutes_ok
      by (try assumption; apply init_cc_efficiency_pos || apply init_cv_efficiency_pos).
    cbn. eexists. split; [reflexivity|]. cbn. repeat split; lra.
Qed.

(** An instance: a target below the initial SOC, at station power 0. *)
Lemma C10_witness :
  exists ev,
    simulate_charging_event (init None) (80 # 100) (50 # 100) 0 = Ok ev /\
    soc_final ev = 50 # 100 /\
    energy_added_kwh ev = ((50 # 100) - (80 # 100)) * battery_capacity_kwh (init None) /\
    ((50 # 100) < (80 # 100) ->
     charging_minutes ev = 0 /\ energy_added_kwh ev < 0).
Proof.
  apply (C10_simulate_charging_event_returns None (80 # 100) (50 # 100) 0).
  right. vm_compute. discriminate.
Defined.

(** C10, in the form of the specification: at station power 0 with a target
    above the initial SOC the division of the CC phase raises, and no event is
    returned. *)
Lemma C10_counterexample_zero_power_raises :
  simulate_charging_event (init None) (20 # 100) (80 # 100) 0
  = Raise ZeroDivisionError.
Proof. reflexivity. Qed.

End ChargingProps.

(** ** The energy model *)

Module EnergyProps.
Import Energy.

Lemma segment_energy_ignores_factor (self : ElectricTruckModel) (f d v gr : Q) :
  segment_energy_kwh (set_temperature_loss_factor self f) d v gr
  = segment_energy_kwh self d v gr.
Proof. reflexivity. Qed.

Lemma apply_temperature_effect_sets (self : ElectricTruckModel) (t : Q) :
  apply_temperature_effect self t
  = set_temperature_loss_factor self
      (temperature_loss_factor (apply_temperature_effect self t)).
Proof.
  unfold apply_temperature_effect.
  destruct (Qltb t 0); [reflexivity|].
  destruct (Qltb t 10); reflexivity.
Qed.

Lemma factor_at_least_one (self : ElectricTruckModel) (t : Q) :
  1 <= temperature_loss_factor (apply_temperature_effect self t).
Proof.
  unfold apply_temperature_effect.
  destruct (Qltb t 0); [cbn; discriminate|].
  destruct (Qltb t 10); cbn; discriminate.
Qed.

(** C5, in the form that holds of the code. A zero average speed makes the
    division [distance_m / avg_speed_mps] raise [ZeroDivisionError]; a zero
    length with a non-zero speed is not rejected: the energy returned is zero. *)
Theorem C5_zero_speed_raises_zero_length_returns_zero
    (self : ElectricTruckModel) (distance_m avg_speed_mps gradient : Q) :
  (avg_speed_mps == 0 ->
   segment_energy_kwh self distance_m avg_speed_mps gradient
   = Raise ZeroDivisionError) /\
  (~ avg_speed_mps == 0 -> ~ drivetrain_eff self == 0 ->
   exists e, segment_energy_kwh self 0 avg_speed_mps gradient = Ok e /\ e == 0).
Proof.
  split.
  - intro H. unfold segment_energy_kwh. now rewrite pydiv_zero.
  - intros Hv Heff. unfold segment_energy_kwh.
    rewrite pydiv_nonzero by exact Hv. cbn [bind].
    set (P := rolling_resistance_power self avg_speed_mps
              + aerodynamic_drag_power self avg_speed_mps
              + climbing_power self gradient avg_speed_mps
              + aux_load_kw self * 1000).
    assert (HE : P * (0 / avg_speed_mps) / 3600 * 1000 == 0) by (field; exact Hv).
    assert (Hle : Qleb 0 (P * (0 / avg_speed_mps) / 3600 * 1000) = true)
      by (apply Qleb_le; rewrite HE; apply Qle_refl).
    rewrite Hle, pydiv_nonzero by exact Heff. cbn [bind].
    eexists. split; [reflexivity|].
    rewrite HE. field. exact Heff.
Qed.

(** An instance on the default truck: speed 0, and length 0 at 20 m/s. *)
Lemma C5_witness :
  segment_energy_kwh init 1000 0 0 = Raise ZeroDivisionError /\
  exists e, segment_energy_kwh init 0 20 0 = Ok e /\ e == 0.
Proof.
  split.
  - apply (C5_zero_speed_raises_zero_length_returns_zero init 1000 0 0).
    reflexivity.
  - apply (C5_zero_speed_raises_zero_length_returns_zero init 0 20 0);
      discriminate.
Defined.

(** C5, in the form of the specification: a segment of length zero is accepted
    (and given the energy zero), and a speed of zero ends in the divide-by-
    zero error of the division. *)
Lemma C5_counterexample_no_rejection :
  (exists e, segment_energy_kwh init 0 20 0 = Ok e /\ e == 0) /\
  segment_energy_kwh init 1000 0 0 = Raise ZeroDivisionError.
Proof.
  split; [|reflexivity].
  eexists. split; vm_compute; reflexivity.
Qed.

(** C6, in the form that holds of the code. The factor assigned is 1.15 below
    0 degrees, 1.05 from 0 up to (not including) 10 degrees and 1.00 from 10
    degrees on, and [compute_edge_energy] multiplies the signed energy of the
    segment by it, consumed or regenerated alike: the magnitude of a
    regenerated energy is multiplied by the factor too, and so never made
    smaller. *)
Theorem C6_derating_scales_signed_energy
    (self : ElectricTruckModel) (edge_length_m speed_mps gradient temp_c base : Q) :
  segment_energy_kwh self edge_length_m speed_mps gradient = Ok base ->
  let self' := apply_temperature_effect self temp_c in
  let factor := temperature_loss_factor self' in
  (temp_c < 0 -> factor = 115 # 100) /\
  (0 <= temp_c -> temp_c < 10 -> factor = 105 # 100) /\
  (10 <= temp_c -> factor = 1) /\
  compute_edge_energy self edge_length_m speed_mps gradient temp_c
  = Ok (base * factor, self') /\
  Qabs (base * factor) == Qabs base * factor /\
  Qabs base <= Qabs (base * factor).
Proof.
  intros Hbase self' factor.
  assert (Hf : 1 <= factor) by apply factor_at_least_one.
  assert (Habs : Qabs (base * factor) == Qabs base * factor).
  { rewrite Qabs_Qmult. rewrite (Qabs_pos factor) by lra. reflexivity. }
  repeat split.
  - intro H. apply Qltb_lt in H. subst factor self'.
    unfold apply_temperature_effect. now rewrite H.
  - intros H0 H10. apply Qltb_ge in H0. apply Qltb_lt in H10. subst factor self'.
    unfold apply_temperature_effect. now rewrite H0, H10.
  - intros H10. subst factor self'. unfold apply_temperature_effect.
    assert (H0 : Qltb temp_c 0 = false) by (apply Qltb_ge; lra).
    apply Qltb_ge in H10. now rewrite H0, H10.
  - unfold compute_edge_energy. fold self'.
    subst self'. rewrite apply_temperature_effect_sets.
    rewrite segment_energy_ignores_factor, Hbase.
    rewrite <- apply_temperature_effect_sets. reflexivity.
  - exact Habs.
  - rewrite Habs. pose proof (Qabs_nonneg base). nra.
Qed.

(** An instance: a downhill segment on the default truck at -5 degrees. *)
Lemma C6_witness :
  exists base,
    segment_energy_kwh init 1000 20 (-5 # 100) = Ok base /\
    compute_edge_energy init 1000 20 (-5 # 100) (-5)
    = Ok (base * (115 # 100), apply_temperature_effect init (-5)) /\
    Qabs base <= Qabs (base * (115 # 100)).
Proof.
  eexists. split; [vm_compute; reflexivity|].
  match goal with
  | |- context [Ok (?b * _, _)] =>
      pose proof (C6_derating_scales_signed_energy
                    init 1000 20 (-5 # 100) (-5) b eq_refl) as H
  end.
  cbv zeta in H. destruct H as (_ & _ & _ & H1 & _ & H2).
  split; [exact H1 | exact H2].
Defined.

(** C6, in the form of the specification: on a downhill segment (gradient -5
    %, 20 m/s, 1000 m) the energy is regenerated (negative), and at -5 degrees
    the value returned has 1.15 times its magnitude. *)
Lemma C6_counterexample_regen_is_scaled :
  exists base r self',
    segment_energy_kwh init 1000 20 (-5 # 100) = Ok base /\
    compute_edge_energy init 1000 20 (-5 # 100) (-5) = Ok (r, self') /\
    base < 0 /\
    Qabs r == Qabs base * (115 # 100) /\
    ~ Qabs r == Qabs base.
Proof.
  do 3 eexists.
  split; [vm_compute; reflexivity|].
  split; [vm_compute; reflexivity|].
  repeat split; vm_compute; congruence.
Qed.

End EnergyProps.

(** ** The station query *)

Module StationProps.
Import Charging Stated.

Lemma within_buffer_iff (pts : list Point) (r : Q) (p : Point) :
  within_buffer pts r p = true <->
  0 < r /\ exists c, In c pts /\ dist2 p c < r * r.
Proof.
  unfold within_buffer. rewrite andb_true_iff, Qltb_lt, existsb_exists.
  split; intros [Hr [c [Hc Hd]]]; (split; [exact Hr|]); exists c; split;
    try exact Hc; now apply Qltb_lt.
Qed.

Lemma stand_in_agrees (self : ChargingStationManager) (path_nodes : list string)
    (buffer_km : Q) :
  Shapely.get_candidate_stations_near_route within_buffer self path_nodes buffer_km
  = get_candidate_stations_near_route self path_nodes buffer_km.
Proof. reflexivity. Qed.

Lemma within_buffer_facts : Shapely.buffer_facts within_buffer.
Proof.
  constructor.
  - intros pts r p H. apply within_buffer_iff in H.
    destruct H as [Hr [c [Hc Hd]]]. split; [exact Hr|].
    exists c. split; [exact Hc | now apply Qlt_le_weak].
  - intros c r p H. apply within_buffer_iff in H.
    destruct H as [_ [c' [[<- | []] Hd]]]. exact Hd.
  - intros pts r p c Hr Hc Hd. apply within_buffer_iff. split; [exact Hr|].
    exists c. split; [exact Hc|].
    unfold Shapely.inner_ratio in Hd. nra.
Qed.

(** C3, in the form that holds of the code.  On a loaded catalog and a route
    whose nodes are all in the graph, for every predicate with the properties
    of shapely's buffer: the query returns only loaded stations, only for a
    positive [buffer_km / 111], and only stations at a distance (in degrees)
    of at most [buffer_km / 111] from some point of the route; it returns
    every loaded station closer than 0.9987 times [buffer_km / 111] to some
    point of the route; and when the route has a single point, every station
    returned is at a distance strictly less than [buffer_km / 111] from it, so
    that a station on the circle is left out. *)
Theorem C3_candidates_between_inner_disc_and_buffer
    (within : list Point -> Q -> Point -> bool)
    (self : ChargingStationManager) (path_nodes : list string) (buffer_km : Q)
    (sts : list Station) (pts : list Point) :
  Shapely.buffer_facts within ->
  stations self = Some sts ->
  route_points (graph self) path_nodes = Ok pts ->
  exists nearby,
    Shapely.get_candidate_stations_near_route within self path_nodes buffer_km
    = Ok nearby /\
    (forall s, In s nearby ->
       In s sts /\ 0 < buffer_km / 111 /\
       exists c, In c pts /\
         dist2 (geometry s) c <= (buffer_km / 111) * (buffer_km / 111)) /\
    (forall s c, In s sts -> 0 < buffer_km / 111 -> In c pts ->
       dist2 (geometry s) c
       < (Shapely.inner_ratio * (buffer_km / 111))
         * (Shapely.inner_ratio * (buffer_km / 111)) ->
       In s nearby) /\
    (forall s c, pts = [c] -> In s nearby ->
       dist2 (geometry s) c < (buffer_km / 111) * (buffer_km / 111)).
Proof.
  intros [Hin Hone Hinner] Hs Hp.
  unfold Shapely.get_candidate_stations_near_route.
  rewrite Hs, Hp. cbn [bind].
  eexists. split; [reflexivity|]. repeat split.
  - apply filter_In in H. tauto.
  - apply filter_In in H. destruct H as [_ H]. now apply Hin in H.
  - apply filter_In in H. destruct H as [_ H]. now apply Hin in H.
  - intros s c Hsts Hr Hc Hd. apply filter_In. split; [exact Hsts|].
    now apply (Hinner pts _ _ c).
  - intros s c -> H. apply filter_In in H. destruct H as [_ H].
    now apply Hone.
Qed.

(** An instance: with the discs for shapely's buffer, a buffer of 222 km (two
    degrees) holds the station that lies one degree from the route. *)
Lemma C3_witness :
  exists nearby,
    Shapely.get_candidate_stations_near_route within_buffer
      Examples.manager_one_node ["A"%string] 222 = Ok nearby /\
    In Examples.station_east nearby /\
    (forall s, In s nearby ->
       dist2 (geometry s) (10, 50) < (222 / 111) * (222 / 111)).
Proof.
  destruct (C3_candidates_between_inner_disc_and_buffer within_buffer
              Examples.manager_one_node ["A"%string] 222
              [Examples.station_east] [(10, 50)]
              within_buffer_facts eq_refl eq_refl)
    as (nearby & Hq & _ & Hinner & Hone).
  exists nearby. split; [exact Hq|]. split.
  - apply (Hinner Examples.station_east (10, 50)).
    + now left.
    + reflexivity.
    + now left.
    + reflexivity.
  - intros s Hs. now apply (Hone s (10, 50)).
Defined.

(** C3, in the form of the specification: with a buffer of 111 km (one degree)
    around a route through the node at (10, 50), the station at (11, 50) lies
    exactly on the boundary of the buffer, and the query returns no station. *)
Lemma C3_counterexample_boundary_station_excluded :
  get_candidate_stations_near_route Examples.manager_one_node ["A"%string] 111
  = Ok [] /\
  dist2 (geometry Examples.station_east) (10, 50) == (111 / 111) * (111 / 111) /\
  ~ closed_buffer_claim Examples.manager_one_node ["A"%string] 111.
Proof.
  split; [reflexivity|]. split; [reflexivity|].
  intro H.
  specialize (H [Examples.station_east] [(10, 50)] [] eq_refl eq_refl eq_refl
                Examples.station_east).
  apply H. split; [now left|].
  exists (10, 50). split; [now left|]. vm_compute. discriminate.
Qed.

(** The same station, for every predicate with the properties of shapely's
    buffer: it lies on the circle of one degree around the only point of the
    route, and the query leaves it out. *)
Lemma boundary_station_left_out (within : list Point -> Q -> Point -> bool) :
  Shapely.buffer_facts within ->
  Shapely.get_candidate_stations_near_route within
    Examples.manager_one_node ["A"%string] 111 = Ok [].
Proof.
  intros [_ Hone _]. cbn.
  match goal with
  | |- context [within ?pts ?r ?p] => destruct (within pts r p) eqn:E
  end; [|reflexivity].
  apply Hone in E. vm_compute in E. discriminate.
Qed.

End StationProps.

(** ** The sweep *)

Module SweepProps.
Import Graph Optimization Stated.

Lemma bind_ok {A B : Type} (r : result A) (k : A -> result B) (b : B) :
  bind r k = Ok b -> exists a, r = Ok a /\ k a = Ok b.
Proof.
  destruct r as [a | e]; cbn; [|discriminate].
  intro H. exists a. split; [reflexivity | exact H].
Qed.

Lemma paths_eqb_eq (p q : list node) : paths_eqb p q = true <-> p = q.
Proof.
  unfold paths_eqb. destruct (list_eq_dec string_dec p q); split; congruence.
Qed.

Lemma contains_key_In (unique : list (list node * ParetoSolution)) (k : list node) :
  contains_key unique k = true <-> In k (map fst unique).
Proof.
  unfold contains_key. rewrite existsb_exists, in_map_iff.
  split.
  - intros [kv [Hin Heq]]. apply paths_eqb_eq in Heq. now exists kv.
  - intros [kv [Heq Hin]]. exists kv. split; [exact Hin|]. now apply paths_eqb_eq.
Qed.

Lemma unique_ok_fold (solutions seen : list ParetoSolution)
    (unique : list (list node * ParetoSolution)) :
  unique_ok seen unique ->
  unique_ok (seen ++ solutions)
    (fold_left (fun unique s =>
                  let key := path s in
                  if contains_key unique key then unique
                  else unique ++ [(key, s)])
               solutions unique).
Proof.
  revert seen unique.
  induction solutions as [|s solutions IH]; intros seen unique Hok.
  - cbn. now rewrite app_nil_r.
  - cbn [fold_left].
    replace (seen ++ s :: solutions) with ((seen ++ [s]) ++ solutions)
      by (now rewrite <- app_assoc).
    apply IH. destruct Hok as [Hnd Hkeys Hvals Hkept].
    destruct (contains_key unique (path s)) eqn:E.
    + apply contains_key_In in E. constructor; try assumption.
      * intros kv Hin. apply in_or_app. left. now apply Hvals.
      * intros s' Hin. apply in_app_or in Hin.
        destruct Hin as [Hin | [<- | []]]; [now apply Hkept | exact E].
    + assert (Hnot : ~ In (path s) (map fst unique)).
      { intro Hin. apply contains_key_In in Hin. congruence. }
      constructor.
      * rewrite map_app. cbn.
        apply NoDup_app; [exact Hnd | repeat constructor; intros [] |].
        intros k Hk [<- | []]. contradiction.
      * intros kv Hin. apply in_app_or in Hin.
        destruct Hin as [Hin | [<- | []]]; [now apply Hkeys | reflexivity].
      * intros kv Hin. apply in_or_app. apply in_app_or in Hin.
        destruct Hin as [Hin | [<- | []]]; [left; now apply Hvals | right; now left].
      * intros s' Hin. rewrite map_app. apply in_or_app. apply in_app_or in Hin.
        destruct Hin as [Hin | [<- | []]]; [left; now apply Hkept | right; now left].
Qed.

Lemma deduplicate_spec (solutions : list ParetoSolution) :
  NoDup (map path (deduplicate solutions)) /\
  (forall s, In s (deduplicate solutions) -> In s solutions) /\
  (forall s, In s solutions -> In (path s) (map path (deduplicate solutions))).
Proof.
  unfold deduplicate.
  pose proof (unique_ok_fold solutions [] []) as H.
  cbn [app] in H.
  destruct H as [Hnd Hkeys Hvals Hkept].
  { constructor; cbn; try constructor; intros ? []. }
  set (unique := fold_left _ solutions []) in *.
  assert (Hmap : map path (map snd unique) = map fst unique).
  { rewrite map_map. apply map_ext_in. intros kv Hin. symmetry. now apply Hkeys. }
  rewrite Hmap. repeat split.
  - exact Hnd.
  - intros s Hin. apply in_map_iff in Hin. destruct Hin as [kv [<- Hin]].
    now apply Hvals.
  - exact Hkept.
Qed.

Section Sweep.

Variable shortest_path : MultiDiGraph -> node -> node -> result (list node).
Variable self : MultiObjectiveOptimizer.
Variables start_node end_node : node.

Lemma weighted_edges_ok (w : Q * Q * Q) (es : list Edge) :
  (forall e, In e es -> ~ get_default (attr_speed_kph (data e)) 100 == 0) ->
  exists es', weighted_edges w es = Ok es'.
Proof.
  induction es as [|e es IH]; intro H.
  - now exists [].
  - destruct IH as [es' Hes']; [intros; apply H; now right|].
    cbn [weighted_edges]. unfold weighted_edge.
    destruct w as [[w_time w_energy] w_em].
    rewrite pydiv_nonzero by (apply H; now left).
    cbn [bind]. rewrite Hes'. cbn [bind]. eauto.
Qed.

Lemma weighted_copy_ok (w : Q * Q * Q) :
  speeds_nonzero (G self) -> exists G2, weighted_copy w (G self) = Ok G2.
Proof.
  intro H. unfold weighted_copy.
  destruct (weighted_edges_ok w (edges (G self)) H) as [es Hes].
  rewrite Hes. cbn [bind]. eauto.
Qed.

Lemma candidate_inv (w : Q * Q * Q) (s : ParetoSolution) :
  candidate shortest_path self start_node end_node w = Ok s ->
  candidate_of shortest_path self start_node end_node w s.
Proof.
  unfold candidate, candidate_of, route_for. intro H.
  apply bind_ok in H. destruct H as [G2 [HG2 H]]. rewrite HG2.
  destruct (_path_metrics self _) as [[c e] c2] eqn:E.
  injection H as <-. cbn. split; [reflexivity | now rewrite E].
Qed.

Lemma candidate_ok (w : Q * Q * Q) :
  speeds_nonzero (G self) ->
  exists s, candidate shortest_path self start_node end_node w = Ok s.
Proof.
  intro H. unfold candidate.
  destruct (weighted_copy_ok w H) as [G2 HG2]. rewrite HG2. cbn [bind].
  destruct (_path_metrics self _) as [[c e] c2]. eauto.
Qed.

Lemma candidates_inv (ws : list (Q * Q * Q)) (cands : list ParetoSolution) :
  candidates shortest_path self start_node end_node ws = Ok cands ->
  Forall2 (candidate_of shortest_path self start_node end_node) ws cands.
Proof.
  revert cands. induction ws as [|w ws IH]; intros cands H.
  - injection H as <-. constructor.
  - cbn [candidates] in H.
    apply bind_ok in H. destruct H as [s [Hs H]].
    apply bind_ok in H. destruct H as [ss [Hss H]].
    injection H as <-. constructor; [now apply candidate_inv | now apply IH].
Qed.

Lemma candidates_ok (ws : list (Q * Q * Q)) :
  speeds_nonzero (G self) ->
  exists cands, candidates shortest_path self start_node end_node ws = Ok cands.
Proof.
  intro H. induction ws as [|w ws [ss Hss]].
  - now exists [].
  - destruct (candidate_ok w H) as [s Hs].
    cbn [candidates]. rewrite Hs. cbn [bind]. rewrite Hss. cbn [bind]. eauto.
Qed.

Lemma run_nsga_inv (sols : list ParetoSolution) :
  run_nsga shortest_path self start_node end_node = Ok sols ->
  exists cands,
    candidates shortest_path self start_node end_node weight_sets = Ok cands /\
    sols = deduplicate cands.
Proof.
  unfold run_nsga. intro H.
  apply bind_ok in H. destruct H as [cands [Hc H]].
  injection H as <-. eauto.
Qed.

End Sweep.

Lemma Forall2_In_l {A B : Type} (P : A -> B -> Prop) (l : list A) (l' : list B) (a : A) :
  Forall2 P l l' -> In a l -> exists b, In b l' /\ P a b.
Proof.
  induction 1 as [|x y l l' Hxy _ IH]; intros Hin; [destruct Hin|].
  destruct Hin as [<- | Hin].
  - exists y. split; [now left | exact Hxy].
  - destruct (IH Hin) as [b [Hb HP]]. exists b. split; [now right | exact HP].
Qed.

Lemma Forall2_In_r {A B : Type} (P : A -> B -> Prop) (l : list A) (l' : list B) (b : B) :
  Forall2 P l l' -> In b l' -> exists a, In a l /\ P a b.
Proof.
  induction 1 as [|x y l l' Hxy _ IH]; intros Hin; [destruct Hin|].
  destruct Hin as [<- | Hin].
  - exists x. split; [now left | exact Hxy].
  - destruct (IH Hin) as [a [Ha HP]]. exists a. split; [now right | exact HP].
Qed.

Lemma candidates_same_consumption
    (shortest_path : MultiDiGraph -> node -> node -> result (list node))
    (self : MultiObjectiveOptimizer) (truck' : Energy.ElectricTruckModel)
    (start_node end_node : node) (ws : list (Q * Q * Q)) :
  Energy.consumption_kwh_per_km truck'
  = Energy.consumption_kwh_per_km (energy_model self) ->
  candidates shortest_path {| G := G self; energy_model := truck' |}
             start_node end_node ws
  = candidates shortest_path self start_node end_node ws.
Proof.
  intro Hcons. induction ws as [|w ws IH]; [reflexivity|].
  cbn [candidates]. rewrite IH. f_equal.
  unfold candidate, _path_metrics. cbn [G energy_model]. now rewrite Hcons.
Qed.

Lemma empty_path_metrics (self : MultiObjectiveOptimizer) (s : ParetoSolution) :
  path s = [] ->
  (cost s, energy s, co2 s) = _path_metrics self (path s) ->
  cost s == 0 /\ energy s == 0 /\ co2 s == 0.
Proof.
  intros Hp H. rewrite Hp in H. unfold _path_metrics in H. cbn in H.
  injection H as -> -> ->. repeat split; ring.
Qed.

(** C9. When the sweep returns, no two of the solutions returned have the same
    node sequence; every solution returned is one of the candidates of the
    five weight vectors, and the node sequence of every candidate is that of a
    solution returned. *)
Theorem C9_returned_paths_are_distinct
    (shortest_path : MultiDiGraph -> node -> node -> result (list node))
    (self : MultiObjectiveOptimizer) (start end_ : node)
    (sols : list ParetoSolution) :
  run_nsga shortest_path self start end_ = Ok sols ->
  NoDup (map path sols) /\
  exists cands,
    candidates shortest_path self start end_ weight_sets = Ok cands /\
    (forall s, In s sols -> In s cands) /\
    (forall s, In s cands -> In (path s) (map path sols)).
Proof.
  intro H. apply run_nsga_inv in H. destruct H as [cands [Hc ->]].
  destruct (deduplicate_spec cands) as [Hnd [Hsub Hkept]].
  split; [exact Hnd|]. exists cands. auto.
Qed.

(** C4, in the form that holds of the code. When no edge has speed zero the
    sweep returns; and a weight vector for which the shortest-path call raises
    still contributes a candidate, with the empty node sequence: the list
    returned holds a solution whose path is empty and whose cost, energy and
    CO2 are zero. *)
Theorem C4_no_path_gives_empty_route_solution
    (shortest_path : MultiDiGraph -> node -> node -> result (list node))
    (self : MultiObjectiveOptimizer) (start end_ : node)
    (w : Q * Q * Q) (G2 : MultiDiGraph) (x : exn) :
  speeds_nonzero (G self) ->
  In w weight_sets ->
  weighted_copy w (G self) = Ok G2 ->
  shortest_path G2 start end_ = Raise x ->
  exists sols,
    run_nsga shortest_path self start end_ = Ok sols /\
    exists s, In s sols /\ path s = [] /\
              cost s == 0 /\ energy s == 0 /\ co2 s == 0.
Proof.
  intros Hspeed Hw HG2 Hraise.
  destruct (candidates_ok shortest_path self start end_ weight_sets Hspeed)
    as [cands Hc].
  pose proof (candidates_inv _ _ _ _ _ _ Hc) as HF.
  exists (deduplicate cands). split.
  - unfold run_nsga. now rewrite Hc.
  - destruct (Forall2_In_l _ _ _ _ HF Hw) as [c [Hcin [Hpath _]]].
    unfold route_for in Hpath. rewrite HG2, Hraise in Hpath.
    destruct (deduplicate_spec cands) as [_ [Hsub Hkept]].
    specialize (Hkept c Hcin). rewrite Hpath in Hkept.
    apply in_map_iff in Hkept. destruct Hkept as [s [Hs Hin]].
    exists s. split; [exact Hin|]. split; [exact Hs|].
    destruct (Forall2_In_r _ _ _ _ HF (Hsub s Hin)) as [w' [_ [_ Hm]]].
    exact (empty_path_metrics self s Hs Hm).
Qed.

(** C1, in the form that holds of the code. The route search checks no SOC and
    inserts no charging event. The routes that [run_nsga] returns are exactly
    the routes that the shortest-path call gives for the five weight vectors
    (the empty route where it raises), whatever their SOC profile, and they do
    not depend on the battery capacity or the SOC limits of the energy model;
    [optimize_route] returns the route of its single shortest-path call. *)
Theorem C1_routes_are_unconstrained_shortest_paths
    (shortest_path : MultiDiGraph -> node -> node -> result (list node))
    (self : MultiObjectiveOptimizer) (start end_ : node)
    (sols : list ParetoSolution) :
  run_nsga shortest_path self start end_ = Ok sols ->
  (forall s, In s sols ->
     exists w, In w weight_sets /\
               path s = route_for shortest_path (G self) start end_ w) /\
  (forall w, In w weight_sets ->
     exists s, In s sols /\
               path s = route_for shortest_path (G self) start end_ w) /\
  (forall truck',
     Energy.consumption_kwh_per_km truck'
     = Energy.consumption_kwh_per_km (energy_model self) ->
     run_nsga shortest_path {| G := G self; energy_model := truck' |} start end_
     = Ok sols) /\
  (forall graph w_time w_energy w_emissions p,
     MultiObjective.optimize_route shortest_path graph start end_
       w_time w_energy w_emissions = Ok p ->
     exists es,
       MultiObjective.weighted_edges w_time w_energy w_emissions (edges graph)
       = Ok es /\
       shortest_path {| nodes := nodes graph; edges := es |} start end_ = Ok p).
Proof.
  intro H. pose proof H as H0.
  apply run_nsga_inv in H. destruct H as [cands [Hc ->]].
  pose proof (candidates_inv _ _ _ _ _ _ Hc) as HF.
  destruct (deduplicate_spec cands) as [_ [Hsub Hkept]].
  repeat split.
  - intros s Hin.
    destruct (Forall2_In_r _ _ _ _ HF (Hsub s Hin)) as [w [Hw [Hp _]]]. eauto.
  - intros w Hw.
    destruct (Forall2_In_l _ _ _ _ HF Hw) as [c [Hcin [Hp _]]].
    specialize (Hkept c Hcin). apply in_map_iff in Hkept.
    destruct Hkept as [s [Hs Hin]]. exists s. split; [exact Hin | congruence].
  - intros truck' Hcons. rewrite <- H0.
    unfold run_nsga. now rewrite (candidates_same_consumption _ _ truck').
  - intros graph w_time w_energy w_emissions p Hopt.
    unfold MultiObjective.optimize_route in Hopt.
    apply bind_ok in Hopt. exact Hopt.
Qed.

(** ** The sweep on the concrete networks *)

Lemma one_way_speeds_nonzero : speeds_nonzero Examples.one_way.
Proof.
  intros e [<- | []]. vm_compute. discriminate.
Qed.

(** An instance: the sweep from Hamburg to Munich, whose five candidates have
    the same path. *)
Lemma C9_witness :
  exists sols,
    run_nsga Nx.nx_shortest_path Examples.optimizer_main
             "Hamburg"%string "Munich"%string = Ok sols /\
    NoDup (map path sols) /\
    exists cands,
      candidates Nx.nx_shortest_path Examples.optimizer_main
                 "Hamburg"%string "Munich"%string weight_sets = Ok cands /\
      (forall s, In s sols -> In s cands) /\
      (forall s, In s cands -> In (path s) (map path sols)).
Proof.
  eexists. split; [vm_compute; reflexivity|].
  apply (C9_returned_paths_are_distinct Nx.nx_shortest_path
           Examples.optimizer_main "Hamburg"%string "Munich"%string).
  vm_compute. reflexivity.
Defined.

(** An instance: the network with no path from A to B, for the weight
    vector (1, 0, 0). *)
Lemma C4_witness :
  exists sols,
    run_nsga Nx.nx_shortest_path Examples.optimizer_one_way
             "A"%string "B"%string = Ok sols /\
    exists s, In s sols /\ path s = [] /\
              cost s == 0 /\ energy s == 0 /\ co2 s == 0.
Proof.
  eapply (C4_no_path_gives_empty_route_solution Nx.nx_shortest_path
            Examples.optimizer_one_way "A"%string "B"%string (1, 0, 0)).
  - exact one_way_speeds_nonzero.
  - now left.
  - vm_compute. reflexivity.
  - vm_compute. reflexivity.
Defined.

(** C4, in the form of the specification: on the network with the single edge
    from B to A, the shortest-path call from A to B raises for each of the
    five weight vectors, and the list returned is not empty: it holds one
    solution, whose path is the empty list. *)
Lemma C4_counterexample_empty_route_is_returned :
  Forall (fun w =>
            exists G2,
              weighted_copy w Examples.one_way = Ok G2 /\
              Nx.nx_shortest_path G2 "A"%string "B"%string = Raise NetworkXNoPath)
         weight_sets /\
  exists s,
    run_nsga Nx.nx_shortest_path Examples.optimizer_one_way
             "A"%string "B"%string = Ok [s] /\
    path s = [].
Proof.
  split.
  - repeat constructor; eexists; split; vm_compute; reflexivity.
  - eexists. split; vm_compute; reflexivity.
Qed.

(** An instance: the sweep from Hamburg to Munich. *)
Lemma C1_witness :
  exists sols,
    run_nsga Nx.nx_shortest_path Examples.optimizer_main
             "Hamburg"%string "Munich"%string = Ok sols /\
    (forall s, In s sols ->
       exists w, In w weight_sets /\
                 path s = route_for Nx.nx_shortest_path
                            (G Examples.optimizer_main)
                            "Hamburg"%string "Munich"%string w) /\
    (forall w, In w weight_sets ->
       exists s, In s sols /\
                 path s = route_for Nx.nx_shortest_path
                            (G Examples.optimizer_main)
                            "Hamburg"%string "Munich"%string w).
Proof.
  eexists. split; [vm_compute; reflexivity|].
  match goal with
  | |- (forall s, In s ?sols -> _) /\ _ =>
      pose proof (C1_routes_are_unconstrained_shortest_paths
                    Nx.nx_shortest_path Examples.optimizer_main
                    "Hamburg"%string "Munich"%string sols) as H
  end.
  destruct H as (H1 & H2 & _); [vm_compute; reflexivity|].
  split; [exact H1 | exact H2].
Defined.

(** C1, in the form of the specification: from Hamburg to Munich on the
    network of [graph_builder.py] the sweep returns the single route through
    Hannover and Nuremberg, with no charging event (a solution has none); its
    energy, 986 kWh, exceeds the 600 kWh of the battery, and on its SOC
    profile, computed from the energy model from an initial SOC of 0.90, a
    segment ends below [min_soc]. *)
Lemma C1_counterexample_route_below_min_soc :
  exists s segments total truck',
    run_nsga Nx.nx_shortest_path Examples.optimizer_main
             "Hamburg"%string "Munich"%string = Ok [s] /\
    path s = ["Hamburg"; "Hannover"; "Nuremberg"; "Munich"]%string /\
    Energy.battery_capacity_kwh Examples.truck_main < energy s /\
    RouteEnergy.compute_route_energy (G Examples.optimizer_main)
      Examples.truck_main (path s) RouteEnergy.default_initial_soc
    = Ok (segments, total, truck') /\
    RouteEnergy.falls_below_min_soc Examples.truck_main segments = true.
Proof.
  do 4 eexists.
  split; [vm_compute; reflexivity|].
  split; [reflexivity|].
  split; [vm_compute; reflexivity|].
  split; vm_compute; reflexivity.
Qed.

End SweepProps.

(** * Further properties of the code *)

(** ** The charging model: splitting, sign and failure *)

Module ChargingMore.
Import Charging ChargingStated ChargingProps.

Lemma positive_nonzero (x : Q) : 0 < x -> ~ x == 0.
Proof. intros H E. rewrite E in H. now apply Qlt_irrefl in H. Qed.

(** When [x] and [y] are squeezed equal, so are their multiples. *)
Ltac squeeze x y k1 k2 :=
  try (let Hxy := fresh "Hxy" in
       assert (Hxy : x - y == 0) by lra;
       assert ((x - y) * k1 == 0) by (rewrite Hxy; ring);
       assert ((x - y) * k2 == 0) by (rewrite Hxy; ring)).

Lemma minutes_split (self : ChargingStationManager) (a b c p : Q) :
  0 < cc_efficiency self -> 0 < cv_efficiency self ->
  ~ p == 0 -> a <= b -> b <= c ->
  (if Qleb c a then 0 else (cc_hours self a c p + cv_hours self a c p) * 60)
  == (if Qleb b a then 0 else (cc_hours self a b p + cv_hours self a b p) * 60)
     + (if Qleb c b then 0 else (cc_hours self b c p + cv_hours self b c p) * 60).
Proof.
  intros Hcc Hcv Hp Hab Hbc.
  pose proof (cc_hours_span self Hcc a c p Hp) as C1.
  pose proof (cc_hours_span self Hcc a b p Hp) as C2.
  pose proof (cc_hours_span self Hcc b c p Hp) as C3.
  pose proof (cv_hours_span self Hcv a c p Hp) as V1.
  pose proof (cv_hours_span self Hcv a b p Hp) as V2.
  pose proof (cv_hours_span self Hcv b c p Hp) as V3.
  revert C1 C2 C3 V1 V2 V3.
  generalize (battery_capacity_kwh self / (p * cc_efficiency self)).
  generalize (battery_capacity_kwh self / (p * (40 # 100) * cv_efficiency self)).
  generalize (cc_hours self a c p) (cc_hours self a b p) (cc_hours self b c p)
             (cv_hours self a c p) (cv_hours self a b p) (cv_hours self b c p).
  intros c1 c2 c3 v1 v2 v3 k2 k1. unfold pymin, pymax.
  set (cut := cc_cutoff_soc self).
  split_tests; intros C1 C2 C3 V1 V2 V3; try lra;
    squeeze a b k1 k2; squeeze b c k1 k2; squeeze b cut k1 k2;
    squeeze a cut k1 k2; squeeze c cut k1 k2; nra.
Qed.

(** Charging in two consecutive sessions, from [a] to [b] and from [b] to [c]
    at the same power, takes the minutes and delivers the energy of the single
    session from [a] to [c], and ends at the same SOC. *)
Theorem split_session_adds_up (self : ChargingStationManager) (a b c p : Q) :
  0 < cc_efficiency self -> 0 < cv_efficiency self ->
  ~ p == 0 -> a <= b -> b <= c ->
  exists ev1 ev2 ev,
    simulate_charging_event self a b p = Ok ev1 /\
    simulate_charging_event self b c p = Ok ev2 /\
    simulate_charging_event self a c p = Ok ev /\
    soc_final ev = soc_final ev2 /\
    charging_minutes ev == charging_minutes ev1 + charging_minutes ev2 /\
    energy_added_kwh ev == energy_added_kwh ev1 + energy_added_kwh ev2.
Proof.
  intros Hcc Hcv Hp Hab Hbc. unfold simulate_charging_event.
  rewrite !(charging_time_minutes_ok self Hcc Hcv) by exact Hp. cbn [bind].
  do 3 eexists. repeat split; cbn.
  - now apply minutes_split.
  - ring.
Qed.

(** An instance: 0.20 -> 0.70 -> 0.95 at 350 kW, across the CC cutoff. *)
Lemma split_session_adds_up_witness :
  exists ev1 ev2 ev,
    simulate_charging_event (init None) (20 # 100) (70 # 100) 350 = Ok ev1 /\
    simulate_charging_event (init None) (70 # 100) (95 # 100) 350 = Ok ev2 /\
    simulate_charging_event (init None) (20 # 100) (95 # 100) 350 = Ok ev /\
    soc_final ev = soc_final ev2 /\
    charging_minutes ev == charging_minutes ev1 + charging_minutes ev2 /\
    energy_added_kwh ev == energy_added_kwh ev1 + energy_added_kwh ev2.
Proof.
  apply (split_session_adds_up (init None) (20 # 100) (70 # 100) (95 # 100) 350);
    try reflexivity; vm_compute; discriminate.
Defined.



(** At a positive power the minutes are never negative, and they are positive
    exactly when the target is above the initial SOC. *)
Theorem charging_time_sign (self : ChargingStationManager) (a b p : Q) :
  0 < battery_capacity_kwh self ->
  0 < cc_efficiency self -> 0 < cv_efficiency self -> 0 < p ->
  exists t,
    charging_time_minutes self a b p = Ok t /\ 0 <= t /\ (0 < t <-> a < b).
Proof.
  intros Hcap Hcc Hcv Hp.
  pose proof (positive_nonzero p Hp) as Hp0.
  rewrite (charging_time_minutes_ok self Hcc Hcv) by exact Hp0.
  eexists. split; [reflexivity|].
  pose proof (cc_hours_span self Hcc a b p Hp0) as C.
  pose proof (cv_hours_span self Hcv a b p Hp0) as V.
  pose proof (cc_rate_pos self Hcap Hcc p Hp) as K1.
  pose proof (cv_rate_pos self Hcap Hcv p Hp) as K2.
  revert C V K1 K2.
  generalize (battery_capacity_kwh self / (p * cc_efficiency self)).
  generalize (battery_capacity_kwh self / (p * (40 # 100) * cv_efficiency self)).
  generalize (cc_hours self a b p) (cv_hours self a b p).
  intros c v k2 k1. unfold pymin, pymax.
  split_tests; intros C V K1 K2; (split; [|split; intro]); try lra; nra.
Qed.

(** An instance: 0.50 -> 0.90 at 150 kW. *)
Lemma charging_time_sign_witness :
  exists t,
    charging_time_minutes (init None) (50 # 100) (90 # 100) 150 = Ok t /\
    0 <= t /\ (0 < t <-> (50 # 100) < (90 # 100)).
Proof.
  apply (charging_time_sign (init None) (50 # 100) (90 # 100) 150); reflexivity.
Defined.

End ChargingMore.

(** ** Loading the stations, the wrapper and the station query *)

Module StationMore.
Import Charging ChargingStated ChargingData.

Lemma to_stations_In (df : list Row) (s : Station) :
  In s (to_stations df) <-> exists r, In r df /\ to_station r = Some s.
Proof.
  induction df as [|r df IH]; cbn.
  - split; [intros [] | intros [r [[] _]]].
  - destruct (to_station r) as [s'|] eqn:E; cbn; rewrite IH; split.
    + intros [<- | [r' [Hin Hr']]]; [exists r; auto | exists r'; auto].
    + intros [r' [[<- | Hin] Hr']]; [left; congruence | right; eauto].
    + intros [r' [Hin Hr']]. exists r'; auto.
    + intros [r' [[<- | Hin] Hr']]; [congruence | eauto].
Qed.

Lemma to_station_fields (r : Row) (s : Station) :
  to_station r = Some s ->
  row_Power_kW r = Some (Power_kW s) /\ has_coordinates r = true.
Proof.
  unfold to_station, has_coordinates.
  destruct (row_Power_kW r), (row_Longitude r), (row_Latitude r);
    try discriminate.
  intro H. injection H as <-. auto.
Qed.

Lemma filtered_rows_In (self : ChargingStationManager) (df : list Row) (r : Row) :
  In r (filtered_rows self df) <->
  In r df /\ country_is_germany r = true /\ power_at_least_150 r = true /\
  power_isin (valid_power_levels_kw self) r = true /\ has_coordinates r = true.
Proof.
  unfold filtered_rows. rewrite !filter_In. tauto.
Qed.

Lemma loaded_In (self : ChargingStationManager) (df : list Row) (s : Station) :
  In s (to_stations (filtered_rows self df)) <->
  exists r, In r df /\ to_station r = Some s /\
            country_is_germany r = true /\
            supported self (Power_kW s) = true /\ 150 <= Power_kW s.
Proof.
  rewrite to_stations_In. split.
  - intros [r [Hin Hs]]. apply filtered_rows_In in Hin.
    destruct Hin as (Hin & Hc & H150 & Hisin & _).
    destruct (to_station_fields r s Hs) as [Hp _].
    unfold power_at_least_150, power_isin in *. rewrite Hp in *.
    exists r. repeat split; try assumption. now apply Qleb_le.
  - intros [r (Hin & Hs & Hc & Hsup & H150)].
    destruct (to_station_fields r s Hs) as [Hp Hxy].
    exists r. split; [|exact Hs]. apply filtered_rows_In.
    unfold power_at_least_150, power_isin. rewrite Hp.
    repeat split; try assumption. now apply Qleb_le.
Qed.

(** The catalog that [load_eafo_dataset] stores and returns holds exactly the
    rows whose country contains "germany" (whatever the case), whose power is
    one of the valid levels and at least 150 kW, and whose coordinates are
    both present. *)
Theorem loaded_stations_exactly (self : ChargingStationManager) (df : list Row) :
  let '(self', gdf) := load_eafo_dataset self df in
  stations self' = Some gdf /\
  forall s,
    In s gdf <->
    exists r, In r df /\ to_station r = Some s /\
              country_is_germany r = true /\
              supported self (Power_kW s) = true /\ 150 <= Power_kW s.
Proof.
  cbn. split; [reflexivity|]. apply loaded_In.
Qed.

Lemma filter_implied {A : Type} (f g : A -> bool) (l : list A) :
  (forall a, g a = true -> f a = true) ->
  filter g (filter f l) = filter g l.
Proof.
  intro H. induction l as [|a l IH]; [reflexivity|]. cbn.
  destruct (f a) eqn:Ef; cbn.
  - now rewrite IH.
  - destruct (g a) eqn:Eg; [|exact IH].
    apply H in Eg. congruence.
Qed.

(** When every valid level is at least 150 kW, as the four default levels
    are, the test [Power_kW >= 150] of the loader removes nothing that the
    test on the levels would keep. *)
Theorem power_floor_is_redundant (self : ChargingStationManager) (df : list Row) :
  Forall (fun level => 150 <= level) (valid_power_levels_kw self) ->
  snd (load_eafo_dataset self df)
  = to_stations
      (filter has_coordinates
         (filter (power_isin (valid_power_levels_kw self))
            (filter country_is_germany df))).
Proof.
  intro H. cbn. unfold filtered_rows. do 2 f_equal.
  apply filter_implied. intros r Hr.
  unfold power_isin, power_at_least_150 in *.
  destruct (row_Power_kW r) as [p|]; [|discriminate].
  apply existsb_exists in Hr. destruct Hr as [level [Hin Heq]].
  apply Qeq_bool_iff in Heq. rewrite Forall_forall in H.
  apply Qleb_le. rewrite Heq. now apply H.
Qed.

(** An instance: the default manager on the sample table. *)
Lemma power_floor_is_redundant_witness :
  snd (load_eafo_dataset (init None) MoreExamples.sample_table)
  = to_stations
      (filter has_coordinates
         (filter (power_isin (valid_power_levels_kw (init None)))
            (filter country_is_germany MoreExamples.sample_table))).
Proof.
  apply (power_floor_is_redundant (init None) MoreExamples.sample_table).
  repeat constructor; discriminate.
Defined.

Lemma route_points_app (g : option NodeTable) (p q : list string) (pts : list Point) :
  route_points g (p ++ q) = Ok pts ->
  exists pts1 pts2,
    route_points g p = Ok pts1 /\ route_points g q = Ok pts2 /\ pts = pts1 ++ pts2.
Proof.
  revert pts. induction p as [|n p IH]; intros pts H.
  - exists [], pts. auto.
  - cbn [app route_points] in H |- *.
    destruct g as [tbl|]; [|discriminate]. cbn [bind] in H |- *.
    destruct (nodes_getitem tbl n) as [xy|]; [|discriminate]. cbn [bind] in H |- *.
    destruct (route_points (Some tbl) (p ++ q)) as [pts'|] eqn:E; [|discriminate].
    injection H as <-.
    destruct (IH pts' eq_refl) as (pts1 & pts2 & H1 & H2 & ->).
    rewrite H1. cbn [bind]. exists (xy :: pts1), pts2. auto.
Qed.

Lemma within_buffer_wider (pts pts' : list Point) (r r' : Q) (p : Point) :
  r <= r' -> incl pts pts' ->
  within_buffer pts r p = true -> within_buffer pts' r' p = true.
Proof.
  intros Hr Hincl H. apply StationProps.within_buffer_iff in H.
  destruct H as [H0 [c [Hc Hd]]].
  apply StationProps.within_buffer_iff. split; [lra|].
  exists c. split; [now apply Hincl | nra].
Qed.

(** A wider buffer loses no station: when the query returns for [b1], it
    returns for every [b2 >= b1], with every station it returned for [b1]. *)
Theorem wider_buffer_keeps_stations (self : ChargingStationManager)
    (path_nodes : list string) (b1 b2 : Q) (near1 : list Station) :
  b1 <= b2 ->
  get_candidate_stations_near_route self path_nodes b1 = Ok near1 ->
  exists near2,
    get_candidate_stations_near_route self path_nodes b2 = Ok near2 /\
    incl near1 near2.
Proof.
  unfold get_candidate_stations_near_route. intros Hb H.
  destruct (stations self) as [sts|]; [|discriminate].
  destruct (route_points (graph self) path_nodes) as [pts|]; [|discriminate].
  cbn [bind] in *. injection H as <-.
  eexists. split; [reflexivity|].
  intros s Hs. apply filter_In in Hs. destruct Hs as [Hin Hw].
  apply filter_In. split; [exact Hin|].
  apply (within_buffer_wider pts pts (b1 / 111) (b2 / 111)); try assumption.
  - unfold Qdiv. apply Qmult_le_compat_r; [exact Hb | discriminate].
  - apply incl_refl.
Qed.

(** An instance: from 222 km to 333 km around the node of the example. *)
Lemma wider_buffer_keeps_stations_witness :
  exists near2,
    get_candidate_stations_near_route Examples.manager_one_node ["A"%string] 333
    = Ok near2 /\
    incl [Examples.station_east] near2.
Proof.
  apply (wider_buffer_keeps_stations Examples.manager_one_node ["A"%string] 222 333).
  - discriminate.
  - reflexivity.
Defined.

(** A longer route loses no station: when the query returns for the route
    [p ++ q], it returns for [p] and for [q], and what it returns for either is
    among what it returns for [p ++ q]. *)
Theorem longer_route_keeps_stations (self : ChargingStationManager)
    (p q : list string) (buffer_km : Q) (near : list Station) :
  get_candidate_stations_near_route self (p ++ q) buffer_km = Ok near ->
  exists near1 near2,
    get_candidate_stations_near_route self p buffer_km = Ok near1 /\
    get_candidate_stations_near_route self q buffer_km = Ok near2 /\
    incl near1 near /\ incl near2 near.
Proof.
  unfold get_candidate_stations_near_route. intro H.
  destruct (stations self) as [sts|]; [|discriminate].
  destruct (route_points (graph self) (p ++ q)) as [pts|] eqn:E; [|discriminate].
  destruct (route_points_app _ _ _ _ E) as (pts1 & pts2 & H1 & H2 & ->).
  rewrite H1, H2. cbn [bind] in *. injection H as <-.
  do 2 eexists. split; [reflexivity|]. split; [reflexivity|].
  split; intros s Hs; apply filter_In in Hs; destruct Hs as [Hin Hw];
    apply filter_In; (split; [exact Hin|]);
    apply (within_buffer_wider _ (pts1 ++ pts2) _ (buffer_km / 111)) in Hw;
    try assumption; try apply Qle_refl.
  - apply incl_appl, incl_refl.
  - apply incl_appr, incl_refl.
Qed.

(** An instance: the route through the node of the example, taken twice. *)
Lemma longer_route_keeps_stations_witness :
  exists near1 near2,
    get_candidate_stations_near_route Examples.manager_one_node ["A"%string] 222
    = Ok near1 /\
    get_candidate_stations_near_route Examples.manager_one_node ["A"%string] 222
    = Ok near2 /\
    incl near1 [Examples.station_east] /\ incl near2 [Examples.station_east].
Proof.
  apply (longer_route_keeps_stations Examples.manager_one_node
           ["A"%string] ["A"%string] 222).
  reflexivity.
Defined.

End StationMore.

(** ** Failures of the station query, and the wrapper *)

Module StationFailures.
Import Charging ChargingStated ChargingData.

Lemma nodes_getitem_raises (tbl : NodeTable) (n : string) (e : exn) :
  nodes_getitem tbl n = Raise e -> e = KeyError.
Proof.
  induction tbl as [|[m xy] tbl IH]; cbn.
  - congruence.
  - destruct (String.eqb m n); [discriminate | exact IH].
Qed.

Lemma route_points_raises (tbl : NodeTable) (path_nodes : list string) (e : exn) :
  route_points (Some tbl) path_nodes = Raise e <->
  e = KeyError /\ exists n, In n path_nodes /\ nodes_getitem tbl n = Raise KeyError.
Proof.
  revert e. induction path_nodes as [|n path_nodes IH]; intro e;
    cbn [route_points bind].
  - split; [discriminate | intros [_ [n [[] _]]]].
  - destruct (nodes_getitem tbl n) as [xy|e'] eqn:E; cbn [bind].
    + destruct (route_points (Some tbl) path_nodes) as [pts|e''] eqn:E'; cbn [bind].
      * split; [discriminate|].
        intros [-> [m [[<- | Hin] Hm]]]; [congruence|].
        assert (H : @Ok (list Point) pts = Raise KeyError)
          by (apply (IH KeyError); split; [reflexivity | eauto]).
        discriminate.
      * split.
        -- intro H. injection H as <-.
           destruct (proj1 (IH e'') eq_refl) as [-> [m [Hin Hm]]].
           split; [reflexivity|]. exists m. split; [now right | exact Hm].
        -- intros [-> _].
           destruct (proj1 (IH e'') eq_refl) as [He _]. now rewrite He.
    + pose proof (nodes_getitem_raises _ _ _ E) as ->. split.
      * intro H. injection H as <-. split; [reflexivity|].
        exists n. split; [now left | exact E].
      * intros [-> _]. reflexivity.
Qed.

(** The station query fails in three ways only: with [ValueError] when no
    catalog is loaded, whatever the route; on a loaded catalog, with
    [AttributeError] when the route is not empty and the manager has no graph,
    and with [KeyError] when a node of the route is not in the graph. *)
Theorem station_query_raises_iff (self : ChargingStationManager)
    (path_nodes : list string) (buffer_km : Q) (e : exn) :
  get_candidate_stations_near_route self path_nodes buffer_km = Raise e <->
  (stations self = None /\ e = ValueError) \/
  (stations self <> None /\ graph self = None /\ path_nodes <> [] /\
   e = AttributeError) \/
  (stations self <> None /\ e = KeyError /\
   exists tbl n, graph self = Some tbl /\ In n path_nodes /\
                 nodes_getitem tbl n = Raise KeyError).
Proof.
  unfold get_candidate_stations_near_route.
  destruct (stations self) as [sts|].
  - destruct (graph self) as [tbl|].
    + destruct (route_points (Some tbl) path_nodes) as [pts|e'] eqn:E; cbn [bind].
      * split; [discriminate|].
        intros [[H _] | [(_ & H & _) | (_ & -> & tbl' & n & Ht & Hin & Hn)]];
          try discriminate.
        injection Ht as <-.
        assert (H : route_points (Some tbl) path_nodes = Raise KeyError)
          by (apply route_points_raises; eauto).
        congruence.
      * apply route_points_raises in E. destruct E as [-> [n [Hin Hn]]]. split.
        -- intro H. injection H as <-. right. right.
           split; [discriminate|]. split; [reflexivity|]. exists tbl, n. auto.
        -- intros [[H _] | [(_ & H & _) | (_ & -> & _)]];
             try discriminate; reflexivity.
    + destruct path_nodes as [|n path_nodes]; cbn [route_points bind].
      * split; [discriminate|].
        intros [[H _] | [(_ & _ & H & _) | (_ & _ & tbl & n & H & _)]];
          try discriminate. now contradiction H.
      * split.
        -- intro H. injection H as <-. right. left.
           repeat split; discriminate.
        -- intros [[H _] | [(_ & _ & _ & ->) | (_ & _ & tbl & m & H & _)]];
             try discriminate; reflexivity.
  - split.
    + intro H. injection H as <-. now left.
    + intros [[_ ->] | [(H & _) | (H & _)]]; [reflexivity | | ]; now contradiction H.
Qed.

Lemma filter_none {A : Type} (f : A -> bool) (l : list A) :
  (forall a, f a = false) -> filter f l = [].
Proof.
  intro H. induction l as [|a l IH]; [reflexivity|]. cbn. now rewrite H.
Qed.

(** On a loaded catalog, an empty route or a buffer that is not positive
    gives the empty answer, provided the route can be looked up. *)
Theorem empty_route_or_buffer_gives_nothing (self : ChargingStationManager)
    (sts : list Station) (path_nodes : list string) (pts : list Point)
    (buffer_km : Q) :
  stations self = Some sts ->
  (get_candidate_stations_near_route self [] buffer_km = Ok []) /\
  (route_points (graph self) path_nodes = Ok pts -> buffer_km <= 0 ->
   get_candidate_stations_near_route self path_nodes buffer_km = Ok []).
Proof.
  intro Hs. unfold get_candidate_stations_near_route. rewrite Hs. split.
  - cbn [route_points bind]. f_equal. apply filter_none.
    intro s. unfold within_buffer. cbn. apply andb_false_r.
  - intros Hp Hb. rewrite Hp. cbn [bind]. f_equal. apply filter_none.
    intro s. unfold within_buffer.
    assert (H0 : Qltb 0 (buffer_km / 111) = false).
    { apply Qltb_ge. unfold Qdiv.
      setoid_replace 0 with (0 * / 111) by ring.
      apply Qmult_le_compat_r; [exact Hb | discriminate]. }
    now rewrite H0.
Qed.

(** An instance: the example manager, with a buffer of 0 km around its node. *)
Lemma empty_route_or_buffer_gives_nothing_witness :
  get_candidate_stations_near_route Examples.manager_one_node [] 5 = Ok [] /\
  get_candidate_stations_near_route Examples.manager_one_node ["A"%string] 0 = Ok [].
Proof.
  split.
  - exact (proj1 (empty_route_or_buffer_gives_nothing Examples.manager_one_node
                    [Examples.station_east] [] [] 5 eq_refl)).
  - exact (proj2 (empty_route_or_buffer_gives_nothing Examples.manager_one_node
                    [Examples.station_east] ["A"%string] [(10, 50)] 0 eq_refl)
                 eq_refl (Qle_refl 0)).
Defined.

(** After a load, every station that the query returns has one of the valid
    power levels of the manager. *)
Theorem candidates_after_load_are_supported (self : ChargingStationManager)
    (df : list Row) (path_nodes : list string) (buffer_km : Q)
    (nearby : list Station) :
  get_candidate_stations_near_route (fst (load_eafo_dataset self df))
    path_nodes buffer_km = Ok nearby ->
  forall s, In s nearby -> supported self (Power_kW s) = true.
Proof.
  unfold get_candidate_stations_near_route. cbn [load_eafo_dataset fst stations set_stations].
  destruct (route_points _ path_nodes) as [pts|]; [|discriminate].
  cbn [bind]. intro H. injection H as <-.
  intros s Hs. apply filter_In in Hs. destruct Hs as [Hin _].
  apply StationMore.loaded_In in Hin.
  destruct Hin as [r (_ & _ & _ & Hsup & _)]. exact Hsup.
Qed.

(** An instance: the sample table, loaded on the graph with one node. *)
Lemma candidates_after_load_are_supported_witness :
  exists nearby,
    get_candidate_stations_near_route
      (fst (load_eafo_dataset (init (Some MoreExamples.one_node))
              MoreExamples.sample_table))
      ["A"%string] 222 = Ok nearby /\
    List.length nearby = 2%nat /\
    forall s, In s nearby ->
              supported (init (Some MoreExamples.one_node)) (Power_kW s) = true.
Proof.
  eexists. split; [vm_compute; reflexivity|]. split; [reflexivity|].
  apply (candidates_after_load_are_supported (init (Some MoreExamples.one_node))
           MoreExamples.sample_table ["A"%string] 222).
  vm_compute. reflexivity.
Defined.

Lemma snapped_stations (nearest_nodes : option NodeTable -> Q -> Q -> result string)
    (g : option NodeTable) (sts : list Station) (ids : list string) :
  station_nodes nearest_nodes g sts = Ok ids -> map fst (combine sts ids) = sts.
Proof.
  revert ids. induction sts as [|s sts IH]; intros ids E; [reflexivity|].
  cbn [station_nodes] in E.
  destruct (nearest_nodes g _ _) as [id|]; [|discriminate]. cbn [bind] in E.
  destruct (station_nodes nearest_nodes g sts) as [ids'|]; [|discriminate].
  injection E as <-. cbn. f_equal. now apply IH.
Qed.

(** The wrapper of charging_module.py depends on the order of the calls.
    Before any load, the query and the simulation raise [AttributeError] and
    snapping raises [ValueError].  A load builds a manager without graph: after
    it, before a snap or after an earlier one, the query on a route that is not
    empty raises [AttributeError].  After a load and then a snap on the graph
    [g], the query and the simulation are those of a manager built on [g] with
    the default battery parameters and the stations loaded, and a snap that
    returns lists those stations in order. *)
Theorem wrapper_follows_call_order
    (nearest_nodes : option NodeTable -> Q -> Q -> result string)
    (g : NodeTable) (df df' : list Row) (n : string) (path_nodes : list string)
    (buffer_km a b p : Q) :
  let w0 := ChargingModule.init in
  let w1 := fst (ChargingModule.load_eafo_dataset w0 df) in
  let w2 := fst (ChargingModule.snap_stations nearest_nodes w1 g) in
  let w3 := fst (ChargingModule.load_eafo_dataset w2 df') in
  let direct := set_stations (init (Some g))
                  (snd (load_eafo_dataset (init None) df)) in
  ChargingModule.get_candidate_stations_near_route w0 path_nodes buffer_km
  = Raise AttributeError /\
  ChargingModule.simulate_charging_event w0 a b p = Raise AttributeError /\
  snd (ChargingModule.snap_stations nearest_nodes w0 g) = Raise ValueError /\
  ChargingModule.get_candidate_stations_near_route w1 (n :: path_nodes) buffer_km
  = Raise AttributeError /\
  ChargingModule.get_candidate_stations_near_route w3 (n :: path_nodes) buffer_km
  = Raise AttributeError /\
  ChargingModule.get_candidate_stations_near_route w2 path_nodes buffer_km
  = get_candidate_stations_near_route direct path_nodes buffer_km /\
  ChargingModule.simulate_charging_event w2 a b p
  = simulate_charging_event direct a b p /\
  (forall snapped,
     snd (ChargingModule.snap_stations nearest_nodes w1 g) = Ok snapped ->
     map fst snapped = snd (load_eafo_dataset (init None) df)).
Proof.
  cbn zeta. repeat split.
  cbn. intros snapped H.
  destruct (station_nodes nearest_nodes (Some g) _) as [ids|] eqn:E; [|discriminate].
  cbn in H. injection H as <-. exact (snapped_stations _ _ _ _ E).
Qed.

(** An instance: the sample table, snapped on the graph with one node. *)
Lemma wrapper_follows_call_order_witness :
  exists snapped,
    snd (ChargingModule.snap_stations MoreExamples.first_node
           (fst (ChargingModule.load_eafo_dataset ChargingModule.init
                   MoreExamples.sample_table))
           MoreExamples.one_node) = Ok snapped /\
    map snd snapped = ["A"; "A"]%string /\
    map fst snapped = snd (load_eafo_dataset (init None) MoreExamples.sample_table).
Proof.
  eexists. split; [vm_compute; reflexivity|]. split; [reflexivity|].
  pose proof (wrapper_follows_call_order MoreExamples.first_node
                MoreExamples.one_node MoreExamples.sample_table [] "A"%string []
                0 0 0 0) as H.
  cbn zeta in H. destruct H as (_ & _ & _ & _ & _ & _ & _ & H).
  apply H. vm_compute. reflexivity.
Defined.

End StationFailures.

(** ** The energy model: distance, sign and state *)

Module EnergyMore.
Import Energy MoreStated.

Lemma segment_energy_ok (self : ElectricTruckModel) (d v gr : Q) :
  ~ v == 0 -> ~ drivetrain_eff self == 0 ->
  segment_energy_kwh self d v gr
  = Ok ((if Qleb 0 (E_mech_wh self d v gr)
         then E_mech_wh self d v gr / drivetrain_eff self
         else E_mech_wh self d v gr * regen_eff self) / 1000).
Proof.
  intros Hv Heff. unfold segment_energy_kwh.
  rewrite pydiv_nonzero by exact Hv. cbn [bind].
  fold (P_total self v gr). fold (E_mech_wh self d v gr).
  destruct (Qleb 0 (E_mech_wh self d v gr)); [|reflexivity].
  now rewrite pydiv_nonzero by exact Heff.
Qed.

Lemma E_mech_wh_linear (self : ElectricTruckModel) (d v gr : Q) :
  ~ v == 0 ->
  E_mech_wh self d v gr == (P_total self v gr / v / 3600 * 1000) * d.
Proof. intro Hv. unfold E_mech_wh. field. exact Hv. Qed.

(** The energy of a segment adds up over its length: a segment of length
    [d1 + d2] costs (or regenerates) what its two parts do, at the same speed
    and gradient. *)
Theorem segment_energy_adds_over_distance
    (self : ElectricTruckModel) (d1 d2 v gr : Q) :
  ~ v == 0 -> ~ drivetrain_eff self == 0 -> 0 <= d1 -> 0 <= d2 ->
  exists e1 e2 e,
    segment_energy_kwh self d1 v gr = Ok e1 /\
    segment_energy_kwh self d2 v gr = Ok e2 /\
    segment_energy_kwh self (d1 + d2) v gr = Ok e /\
    e == e1 + e2.
Proof.
  intros Hv Heff H1 H2.
  rewrite !segment_energy_ok by assumption.
  do 3 eexists. repeat split.
  pose proof (E_mech_wh_linear self d1 v gr Hv) as L1.
  pose proof (E_mech_wh_linear self d2 v gr Hv) as L2.
  pose proof (E_mech_wh_linear self (d1 + d2) v gr Hv) as L.
  revert L1 L2 L.
  generalize (E_mech_wh self d1 v gr) (E_mech_wh self d2 v gr)
             (E_mech_wh self (d1 + d2) v gr) (P_total self v gr / v / 3600 * 1000).
  intros x1 x2 x c L1 L2 L.
  assert (Hx : x == x1 + x2) by (rewrite L, L1, L2; ring).
  assert (Hsame : 0 <= x1 * x2).
  { rewrite L1, L2.
    setoid_replace (c * d1 * (c * d2)) with ((c * c) * (d1 * d2)) by ring.
    apply Qmult_le_0_compat; [nra | now apply Qmult_le_0_compat]. }
  unfold Qdiv. generalize (/ drivetrain_eff self) (regen_eff self). intros k r.
  clear L1 L2 L.
  split_tests;
    first [ rewrite Hx; ring
          | assert (H0 : x1 == 0) by nra; rewrite Hx, H0; ring
          | assert (H0 : x2 == 0) by nra; rewrite Hx, H0; ring
          | exfalso; nra ].
Qed.

(** An instance: 400 m and 600 m downhill on the default truck. *)
Lemma segment_energy_adds_over_distance_witness :
  exists e1 e2 e,
    segment_energy_kwh init 400 20 (-5 # 100) = Ok e1 /\
    segment_energy_kwh init 600 20 (-5 # 100) = Ok e2 /\
    segment_energy_kwh init (400 + 600) 20 (-5 # 100) = Ok e /\
    e == e1 + e2.
Proof.
  apply (segment_energy_adds_over_distance init 400 600 20 (-5 # 100));
    discriminate.
Defined.

(** On a segment of positive length driven at a positive speed, the energy
    has the sign of the total power: it is negative exactly when the power is,
    and then the SOC after the segment is above the SOC before it. *)
Theorem segment_energy_sign (self : ElectricTruckModel) (d v gr soc : Q) :
  0 < d -> 0 < v -> 0 < drivetrain_eff self -> 0 < regen_eff self ->
  0 < battery_capacity_kwh self ->
  exists e soc',
    segment_energy_kwh self d v gr = Ok e /\
    soc_after_segment self soc e = Ok soc' /\
    (e < 0 <-> P_total self v gr < 0) /\
    (e < 0 <-> soc < soc').
Proof.
  intros Hd Hv Heff Hregen Hcap.
  assert (Hv0 : ~ v == 0) by (intro E; rewrite E in Hv; now apply Qlt_irrefl in Hv).
  assert (Heff0 : ~ drivetrain_eff self == 0)
    by (intro E; rewrite E in Heff; now apply Qlt_irrefl in Heff).
  assert (Hcap0 : ~ battery_capacity_kwh self == 0)
    by (intro E; rewrite E in Hcap; now apply Qlt_irrefl in Hcap).
  rewrite segment_energy_ok by assumption.
  do 2 eexists. split; [reflexivity|].
  split; [unfold soc_after_segment; now rewrite pydiv_nonzero by exact Hcap0|].
  assert (Hx : E_mech_wh self d v gr == P_total self v gr * (d / v / 3600 * 1000))
    by (unfold E_mech_wh; field; exact Hv0).
  assert (Hpos : 0 < d / v / 3600 * 1000).
  { unfold Qdiv. repeat apply Qmult_lt_0_compat; try assumption; try reflexivity.
    now apply Qinv_lt_0_compat. }
  assert (Hk : 0 < / drivetrain_eff self) by now apply Qinv_lt_0_compat.
  assert (Hc : 0 < / battery_capacity_kwh self) by now apply Qinv_lt_0_compat.
  revert Hx Hpos Hk Hc. unfold Qdiv.
  generalize (E_mech_wh self d v gr) (P_total self v gr)
             (d * / v * / 3600 * 1000) (/ drivetrain_eff self)
             (/ battery_capacity_kwh self) (regen_eff self) Hregen.
  intros x P m k ic r Hr Hx Hm Hk Hc.
  split_tests.
  - assert (HP : 0 <= P) by nra.
    assert (Hxk : 0 <= x * k) by nra.
    assert (He : 0 <= x * k * / 1000)
      by (apply Qmult_le_0_compat; [exact Hxk | discriminate]).
    revert He. generalize (x * k * / 1000). intros e He.
    split; split; intro; try lra; exfalso; nra.
  - assert (HP : P < 0) by nra.
    assert (Hxr : 0 < - (x * r)) by nra.
    assert (He : 0 < - (x * r) * / 1000)
      by (apply Qmult_lt_0_compat; [exact Hxr | reflexivity]).
    assert (He' : x * r * / 1000 < 0)
      by (setoid_replace (x * r * / 1000) with (- (- (x * r) * / 1000)) by ring;
          lra).
    clear He. revert He'. generalize (x * r * / 1000). intros e He.
    split; split; intro; try lra; nra.
Qed.

(** An instance: the downhill segment on the default truck, from SOC 0.50. *)
Lemma segment_energy_sign_witness :
  exists e soc',
    segment_energy_kwh init 1000 20 (-5 # 100) = Ok e /\
    soc_after_segment init (50 # 100) e = Ok soc' /\
    (e < 0 <-> P_total init 20 (-5 # 100) < 0) /\
    (e < 0 <-> (50 # 100) < soc').
Proof.
  apply (segment_energy_sign init 1000 20 (-5 # 100) (50 # 100)); reflexivity.
Defined.

Lemma compute_edge_energy_ignores_factor (self : ElectricTruckModel) (f d v gr t : Q) :
  compute_edge_energy (set_temperature_loss_factor self f) d v gr t
  = compute_edge_energy self d v gr t.
Proof.
  unfold compute_edge_energy, apply_temperature_effect.
  destruct (Qltb t 0); [reflexivity|].
  destruct (Qltb t 10); reflexivity.
Qed.

(** The derating factor is state that every call overwrites: the model left
    by [compute_edge_energy] is the one it was given but for the factor of the
    temperature of the call, and a later call behaves as if the earlier one
    had not happened. *)
Theorem edge_energy_overwrites_factor (self self1 : ElectricTruckModel)
    (d1 v1 gr1 t1 e1 d2 v2 gr2 t2 : Q) :
  compute_edge_energy self d1 v1 gr1 t1 = Ok (e1, self1) ->
  self1 = set_temperature_loss_factor self (temperature_loss_factor self1) /\
  compute_edge_energy self1 d2 v2 gr2 t2 = compute_edge_energy self d2 v2 gr2 t2.
Proof.
  unfold compute_edge_energy at 1. intro H.
  destruct (segment_energy_kwh _ d1 v1 gr1) as [base|]; [|discriminate].
  cbn [bind] in H. injection H as _ <-.
  split.
  - apply EnergyProps.apply_temperature_effect_sets.
  - rewrite EnergyProps.apply_temperature_effect_sets.
    apply compute_edge_energy_ignores_factor.
Qed.

(** An instance: a call at -5 degrees followed by a call at 15 degrees. *)
Lemma edge_energy_overwrites_factor_witness :
  exists e1 self1,
    compute_edge_energy init 1000 20 0 (-5) = Ok (e1, self1) /\
    temperature_loss_factor self1 = 115 # 100 /\
    compute_edge_energy self1 1000 20 0 15 = compute_edge_energy init 1000 20 0 15.
Proof.
  do 2 eexists. split; [vm_compute; reflexivity|]. split; [reflexivity|].
  match goal with
  | |- compute_edge_energy ?s1 _ _ _ _ = _ =>
      exact (proj2 (edge_energy_overwrites_factor init s1 1000 20 0 (-5) _
                      1000 20 0 15 eq_refl))
  end.
Defined.

End EnergyMore.

(** ** Route energy of [EnergyModel], and the metrics of the sweep *)

Module MetricsMore.
Import Graph Optimization Stated.

Lemma route_total_m_same (G : MultiDiGraph) (acc : Q) (p : list node) :
  EnergyRoute.route_total_m G acc p = path_total_m G acc p.
Proof.
  revert acc. induction p as [|u p IH]; intro acc; [reflexivity|].
  destruct p as [|v rest]; [reflexivity|].
  cbn [EnergyRoute.route_total_m path_total_m].
  destruct (get_edge_data G u v) as [[|[k first] d]|]; apply IH.
Qed.

(** Without a graph, [compute_route_energy] of [EnergyModel] counts one
    kilometre for each hop of the route and never less than one kilometre: an
    empty route and a route of one node are given 1 km too. *)
Theorem fallback_route_energy (self : Energy.ElectricTruckModel)
    (path_nodes : list node) (c : Q) :
  Energy.consumption_kwh_per_km self = Some c ->
  exists km energy,
    EnergyRoute.compute_route_energy self path_nodes None = Ok (km, energy) /\
    km == inject_Z (Z.max 1 (Z.of_nat (List.length path_nodes) - 1)) /\
    1 <= km /\
    energy == km * c.
Proof.
  intro Hc. unfold EnergyRoute.compute_route_energy. rewrite Hc. cbn [bind].
  do 2 eexists. split; [reflexivity|].
  assert (Hkm : 1000 * inject_Z (EnergyRoute.hops path_nodes) / 1000
                == inject_Z (EnergyRoute.hops path_nodes)) by field.
  split; [exact Hkm|]. split; [|reflexivity].
  rewrite Hkm. unfold EnergyRoute.hops.
  change 1 with (inject_Z 1). rewrite <- Zle_Qle. apply Z.le_max_l.
Qed.

(** An instance: the empty route on the truck of [main.py]. *)
Lemma fallback_route_energy_witness :
  exists km energy,
    EnergyRoute.compute_route_energy Examples.truck_main [] None = Ok (km, energy) /\
    km == inject_Z (Z.max 1 (Z.of_nat 0 - 1)) /\
    1 <= km /\
    energy == km * (145 # 100).
Proof.
  apply (fallback_route_energy Examples.truck_main [] (145 # 100)). reflexivity.
Defined.

(** With the graph of the optimizer, [compute_route_energy] of [EnergyModel]
    returns the energy that [_path_metrics] reports, and the cost and the CO2
    of [_path_metrics] are 0.32 and 0.42 times that energy. *)
Theorem route_energy_agrees_with_path_metrics (self : MultiObjectiveOptimizer)
    (path_nodes : list node) (c : Q) :
  Energy.consumption_kwh_per_km (energy_model self) = Some c ->
  exists km energy,
    EnergyRoute.compute_route_energy (energy_model self) path_nodes (Some (G self))
    = Ok (km, energy) /\
    _path_metrics self path_nodes
    = (energy * (32 # 100), energy, energy * (42 # 100)).
Proof.
  intro Hc. unfold EnergyRoute.compute_route_energy, _path_metrics.
  rewrite Hc, route_total_m_same. cbn [bind get_default].
  do 2 eexists. split; reflexivity.
Qed.

(** An instance: the route of the sweep on the network of [main.py]. *)
Lemma route_energy_agrees_with_path_metrics_witness :
  exists km energy,
    EnergyRoute.compute_route_energy Examples.truck_main
      ["Hamburg"; "Hannover"; "Nuremberg"; "Munich"]%string
      (Some RoadNetwork.build_graph_with_chargers)
    = Ok (km, energy) /\
    _path_metrics Examples.optimizer_main
      ["Hamburg"; "Hannover"; "Nuremberg"; "Munich"]%string
    = (energy * (32 # 100), energy, energy * (42 # 100)).
Proof.
  apply (route_energy_agrees_with_path_metrics Examples.optimizer_main
           ["Hamburg"; "Hannover"; "Nuremberg"; "Munich"]%string (145 # 100)).
  reflexivity.
Defined.

Lemma path_total_m_step (G : MultiDiGraph) (acc : Q) (u v : node) (rest : list node) :
  path_total_m G acc (u :: v :: rest)
  = path_total_m G
      (match get_edge_data G u v with
       | Some ((_, first) :: _) => acc + get_default (attr_length first) 1000
       | _ => acc
       end) (v :: rest).
Proof.
  cbn [path_total_m].
  destruct (get_edge_data G u v) as [[|[k first] d]|]; reflexivity.
Qed.

Lemma path_total_m_acc (G : MultiDiGraph) (acc : Q) (p : list node) :
  path_total_m G acc p == acc + path_total_m G 0 p.
Proof.
  revert acc. induction p as [|u p IH]; intro acc; [cbn; ring|].
  destruct p as [|v rest]; [cbn; ring|].
  rewrite !path_total_m_step.
  rewrite IH, (IH (match get_edge_data G u v with
                   | Some ((_, first) :: _) => 0 + get_default (attr_length first) 1000
                   | _ => 0
                   end)).
  destruct (get_edge_data G u v) as [[|[k first] d]|]; ring.
Qed.

Lemma path_total_m_junction (G : MultiDiGraph) (p q : list node) (x : node) :
  path_total_m G 0 (p ++ x :: q)
  == path_total_m G 0 (p ++ [x]) + path_total_m G 0 (x :: q).
Proof.
  induction p as [|u p IH].
  - cbn [app]. change (path_total_m G 0 [x]) with 0. ring.
  - destruct p as [|v rest].
    + cbn [app]. rewrite !path_total_m_step.
      change (path_total_m G ?a [x]) with a.
      rewrite path_total_m_acc. reflexivity.
    + cbn [app] in *. rewrite !path_total_m_step.
      set (m := match get_edge_data G u v with
                | Some ((_, first) :: _) => 0 + get_default (attr_length first) 1000
                | _ => 0
                end).
      rewrite (path_total_m_acc G m (v :: rest ++ x :: q)),
              (path_total_m_acc G m (v :: rest ++ [x])), IH.
      ring.
Qed.

(** The metrics add up along a route: a route cut at one of its nodes has
    the energy, the cost and the CO2 of its two parts together. *)
Theorem path_metrics_add_at_a_node (self : MultiObjectiveOptimizer)
    (p q : list node) (x : node) :
  let whole := _path_metrics self (p ++ x :: q) in
  let before := _path_metrics self (p ++ [x]) in
  let after := _path_metrics self (x :: q) in
  snd (fst whole) == snd (fst before) + snd (fst after) /\
  fst (fst whole) == fst (fst before) + fst (fst after) /\
  snd whole == snd before + snd after.
Proof.
  unfold _path_metrics. cbn [fst snd].
  pose proof (path_total_m_junction (G self) p q x) as H.
  repeat split; rewrite H; field.
Qed.

End MetricsMore.

(** ** Deduplication and the outcome of the sweep *)

Module DedupMore.
Import Graph Optimization Stated.

Lemma dedup_fold_In (solutions : list ParetoSolution)
    (unique : list (list node * ParetoSolution)) (kv : list node * ParetoSolution) :
  In kv (fold_left (fun unique s =>
                      let key := path s in
                      if contains_key unique key then unique
                      else unique ++ [(key, s)])
                   solutions unique) <->
  In kv unique \/
  exists l1 l2,
    solutions = l1 ++ snd kv :: l2 /\ fst kv = path (snd kv) /\
    ~ In (fst kv) (map fst unique) /\ ~ In (fst kv) (map path l1).
Proof.
  revert unique. induction solutions as [|a rest IH]; intro unique.
  - cbn. split; [now left|].
    intros [H | (l1 & l2 & H & _)]; [exact H|]. now destruct l1.
  - cbn [fold_left]. rewrite IH. clear IH.
    destruct (contains_key unique (path a)) eqn:E.
    + apply SweepProps.contains_key_In in E. split.
      * intros [H | (l1 & l2 & -> & Hk & Hu & Hl)]; [now left|]. right.
        exists (a :: l1), l2. repeat split; try assumption.
        cbn. intros [Ha | Hin]; [|contradiction]. congruence.
      * intros [H | (l1 & l2 & Heq & Hk & Hu & Hl)]; [now left|]. right.
        destruct l1 as [|b l1]; cbn in Heq; injection Heq as Ha Hr.
        -- exfalso. apply Hu. rewrite Hk, <- Ha. exact E.
        -- exists l1, l2. repeat split; try assumption.
           intro Hin. apply Hl. now right.
    + assert (Hnot : ~ In (path a) (map fst unique)).
      { intro Hin. apply SweepProps.contains_key_In in Hin. congruence. }
      split.
      * intros [H | (l1 & l2 & -> & Hk & Hu & Hl)].
        -- apply in_app_or in H. destruct H as [H | [<- | []]]; [now left|].
           right. exists [], rest. cbn. repeat split; auto.
        -- right. exists (a :: l1), l2.
           rewrite map_app, in_app_iff in Hu. cbn in Hu.
           repeat split; try assumption; [tauto|].
           cbn. intros [Ha | Hin]; [|contradiction]. apply Hu. right. now left.
      * intros [H | (l1 & l2 & Heq & Hk & Hu & Hl)].
        -- left. apply in_or_app. now left.
        -- destruct l1 as [|b l1]; cbn in Heq; injection Heq as Ha Hr.
           ++ left. apply in_or_app. right. left.
              destruct kv as [k s]. cbn in *. now subst.
           ++ right. exists l1, l2. repeat split; try assumption.
              ** rewrite map_app, in_app_iff. cbn.
                 intros [H | [H | []]]; [contradiction|].
                 apply Hl. left. rewrite <- Ha. now symmetry.
              ** intro Hin. apply Hl. now right.
Qed.

(** Deduplication keeps first occurrences: a solution is returned exactly
    when it stands in the list before any other solution with its path. *)
Theorem deduplicate_keeps_first (solutions : list ParetoSolution)
    (s : ParetoSolution) :
  In s (deduplicate solutions) <->
  exists l1 l2, solutions = l1 ++ s :: l2 /\ ~ In (path s) (map path l1).
Proof.
  unfold deduplicate. rewrite in_map_iff. split.
  - intros [kv [<- Hin]]. apply dedup_fold_In in Hin.
    destruct Hin as [[] | (l1 & l2 & Heq & Hk & _ & Hl)].
    exists l1, l2. split; [exact Heq | congruence].
  - intros (l1 & l2 & Heq & Hl). exists (path s, s). split; [reflexivity|].
    apply dedup_fold_In. right. exists l1, l2. cbn. auto.
Qed.

Lemma dedup_fold_distinct (solutions : list ParetoSolution)
    (unique : list (list node * ParetoSolution)) :
  NoDup (map path solutions) ->
  (forall s, In s solutions -> ~ In (path s) (map fst unique)) ->
  fold_left (fun unique s =>
               let key := path s in
               if contains_key unique key then unique
               else unique ++ [(key, s)])
            solutions unique
  = unique ++ map (fun s => (path s, s)) solutions.
Proof.
  revert unique. induction solutions as [|a rest IH]; intros unique Hnd Hfresh.
  - cbn. now rewrite app_nil_r.
  - cbn [fold_left map]. inversion Hnd as [|? ? Ha Hrest]; subst.
    destruct (contains_key unique (path a)) eqn:E.
    + apply SweepProps.contains_key_In in E. exfalso.
      apply (Hfresh a); [now left | exact E].
    + rewrite IH; [now rewrite <- app_assoc | exact Hrest |].
      intros s Hs. rewrite map_app, in_app_iff. cbn.
      intros [H | [H | []]].
      * apply (Hfresh s); [now right | exact H].
      * apply Ha. rewrite H. now apply in_map.
Qed.

(** Deduplication changes nothing in a list whose paths are distinct, and so
    deduplicating twice is deduplicating once. *)
Theorem deduplicate_idempotent (solutions : list ParetoSolution) :
  (NoDup (map path solutions) -> deduplicate solutions = solutions) /\
  deduplicate (deduplicate solutions) = deduplicate solutions.
Proof.
  assert (H : forall l, NoDup (map path l) -> deduplicate l = l).
  { intros l Hnd. unfold deduplicate.
    rewrite dedup_fold_distinct; [|exact Hnd | intros ? ? []].
    cbn. rewrite map_map. cbn. apply map_id. }
  split; [apply H|]. apply H. apply SweepProps.deduplicate_spec.
Qed.

(** An instance: three solutions with three paths. *)
Lemma deduplicate_idempotent_witness :
  deduplicate [mkSolution 1 2 3 []; mkSolution 1 2 3 ["A"%string];
               mkSolution 0 0 0 ["A"; "B"]%string]
  = [mkSolution 1 2 3 []; mkSolution 1 2 3 ["A"%string];
     mkSolution 0 0 0 ["A"; "B"]%string].
Proof.
  apply (proj1 (deduplicate_idempotent _)).
  repeat constructor; cbn; intuition discriminate.
Defined.

End DedupMore.

(** ** The outcome of the sweep and of [optimize_route] *)

Module SearchMore.
Import Graph Optimization Stated MoreStated.

Lemma zero_speed_dec (es : list Edge) :
  (exists e, In e es /\ get_default (attr_speed_kph (data e)) 100 == 0) \/
  (forall e, In e es -> ~ get_default (attr_speed_kph (data e)) 100 == 0).
Proof.
  induction es as [|a es [[e [Hin He]] | IH]].
  - right. intros e [].
  - left. exists e. split; [now right | exact He].
  - destruct (Qeq_dec (get_default (attr_speed_kph (data a)) 100) 0) as [H | H].
    + left. exists a. split; [now left | exact H].
    + right. intros e [<- | Hin]; [exact H | now apply IH].
Qed.

Lemma weighted_edge_raises (w : Q * Q * Q) (e : Edge) (x : exn) :
  weighted_edge w e = Raise x -> x = ZeroDivisionError.
Proof.
  unfold weighted_edge. destruct w as [[w_time w_energy] w_em].
  unfold pydiv. destruct (Qis_zero _); cbn; congruence.
Qed.

Lemma weighted_edges_raises (w : Q * Q * Q) (es : list Edge) (x : exn) :
  weighted_edges w es = Raise x -> x = ZeroDivisionError.
Proof.
  induction es as [|e es IH]; cbn [weighted_edges]; [discriminate|].
  destruct (weighted_edge w e) as [e'|x'] eqn:E; cbn [bind].
  - destruct (weighted_edges w es) as [es'|x'']; cbn [bind]; [discriminate|].
    intro H. injection H as <-. now apply IH.
  - intro H. injection H as <-. exact (weighted_edge_raises _ _ _ E).
Qed.

Lemma weighted_edges_stopped (w : Q * Q * Q) (es : list Edge) :
  (exists e, In e es /\ get_default (attr_speed_kph (data e)) 100 == 0) ->
  weighted_edges w es = Raise ZeroDivisionError.
Proof.
  intros [e [Hin He]]. induction es as [|a es IH]; [destruct Hin|].
  cbn [weighted_edges].
  destruct (weighted_edge w a) as [a'|x] eqn:E; cbn [bind].
  - destruct Hin as [<- | Hin].
    + unfold weighted_edge in E. destruct w as [[w_time w_energy] w_em].
      rewrite pydiv_zero in E by exact He. discriminate.
    + now rewrite IH.
  - now rewrite (weighted_edge_raises _ _ _ E).
Qed.

(** The sweep raises in one case only: [ZeroDivisionError], when some edge of
    the graph has speed zero; whether the shortest-path call raises makes no
    difference. *)
Theorem run_nsga_raises_iff
    (shortest_path : MultiDiGraph -> node -> node -> result (list node))
    (self : MultiObjectiveOptimizer) (start end_ : node) (x : exn) :
  run_nsga shortest_path self start end_ = Raise x <->
  x = ZeroDivisionError /\
  exists e, In e (edges (G self)) /\
            get_default (attr_speed_kph (data e)) 100 == 0.
Proof.
  split.
  - intro H. destruct (zero_speed_dec (edges (G self))) as [Hz | Hnz].
    + split; [|exact Hz].
      unfold run_nsga, weight_sets in H. cbn [candidates] in H.
      unfold candidate at 1, weighted_copy in H.
      rewrite (weighted_edges_stopped _ _ Hz) in H. cbn in H. congruence.
    + destruct (SweepProps.candidates_ok shortest_path self start end_
                  weight_sets Hnz) as [cands Hc].
      unfold run_nsga in H. rewrite Hc in H. discriminate.
  - intros [-> Hz]. unfold run_nsga, weight_sets. cbn [candidates].
    unfold candidate at 1, weighted_copy.
    now rewrite (weighted_edges_stopped _ _ Hz).
Qed.

Lemma dedup_fold_head (solutions : list ParetoSolution)
    (h : list node * ParetoSolution) (unique : list (list node * ParetoSolution)) :
  exists t,
    fold_left (fun unique s =>
                 let key := path s in
                 if contains_key unique key then unique
                 else unique ++ [(key, s)])
              solutions (h :: unique) = h :: t.
Proof.
  revert unique. induction solutions as [|a rest IH]; intro unique.
  - now exists unique.
  - cbn [fold_left]. destruct (contains_key (h :: unique) (path a)).
    + apply IH.
    + cbn [app]. apply IH.
Qed.

(** When the sweep returns, the list is not empty and holds at most five
    solutions, and its first solution carries the route of the first weight
    vector, the time-only one. *)
Theorem run_nsga_size
    (shortest_path : MultiDiGraph -> node -> node -> result (list node))
    (self : MultiObjectiveOptimizer) (start end_ : node)
    (sols : list ParetoSolution) :
  run_nsga shortest_path self start end_ = Ok sols ->
  (List.length sols <= 5)%nat /\
  exists first rest,
    sols = first :: rest /\
    path first = route_for shortest_path (G self) start end_ (1, 0, 0).
Proof.
  intro H. apply SweepProps.run_nsga_inv in H. destruct H as [cands [Hc ->]].
  pose proof (SweepProps.candidates_inv _ _ _ _ _ _ Hc) as HF.
  destruct (SweepProps.deduplicate_spec cands) as [Hnd [Hsub _]].
  split.
  - apply Forall2_length in HF. cbn in HF. rewrite HF.
    apply NoDup_incl_length; [|exact Hsub].
    now apply NoDup_map_inv in Hnd.
  - unfold weight_sets in HF. inversion HF as [|w c ws cs [Hp _] _]; subst.
    destruct (dedup_fold_head cs (path c, c) []) as [t Ht].
    exists c, (map snd t). split; [|exact Hp].
    change (deduplicate (c :: cs))
      with (map snd (fold_left (fun unique s =>
                                  let key := path s in
                                  if contains_key unique key then unique
                                  else unique ++ [(key, s)])
                               cs [(path c, c)])).
    now rewrite Ht.
Qed.

(** An instance: the sweep on the network with no path from A to B. *)
Lemma run_nsga_size_witness :
  exists sols,
    run_nsga Nx.nx_shortest_path Examples.optimizer_one_way
      "A"%string "B"%string = Ok sols /\
    (List.length sols <= 5)%nat /\
    exists first rest,
      sols = first :: rest /\
      path first = route_for Nx.nx_shortest_path Examples.one_way
                     "A"%string "B"%string (1, 0, 0).
Proof.
  eexists. split; [vm_compute; reflexivity|].
  apply (run_nsga_size Nx.nx_shortest_path Examples.optimizer_one_way
           "A"%string "B"%string).
  vm_compute. reflexivity.
Defined.

Lemma edge_weight_raises (wt we wm : Q) (d : EdgeData) (x : exn) :
  MultiObjective.edge_weight wt we wm d = Raise x ->
  x = KeyError \/ x = ZeroDivisionError.
Proof.
  unfold MultiObjective.edge_weight, getitem, pydiv.
  destruct (attr_length d); cbn; [|intro H; left; congruence].
  destruct (attr_speed_kph d); cbn; [|intro H; left; congruence].
  destruct (Qis_zero _); cbn; [intro H; right; congruence | discriminate].
Qed.

Lemma edge_weight_ready (wt we wm : Q) (e : Edge) :
  edge_ready e -> exists w, MultiObjective.edge_weight wt we wm (data e) = Ok w.
Proof.
  intros (len & speed & Hl & Hs & Hz).
  unfold MultiObjective.edge_weight. rewrite Hl, Hs. cbn [getitem bind].
  rewrite pydiv_nonzero by exact Hz. cbn [bind]. eauto.
Qed.

Lemma edge_weight_unready (wt we wm : Q) (e : Edge) :
  edge_unready e -> exists x, MultiObjective.edge_weight wt we wm (data e) = Raise x.
Proof.
  unfold MultiObjective.edge_weight.
  intros [Hl | [Hs | (speed & Hs & Hz)]].
  - rewrite Hl. cbn. eauto.
  - rewrite Hs. destruct (attr_length (data e)); cbn; eauto.
  - rewrite Hs. destruct (attr_length (data e)); cbn [getitem bind]; [|eauto].
    rewrite pydiv_zero by exact Hz. cbn. eauto.
Qed.

(** [optimize_route] needs a length and a non-zero speed on every edge: when
    all edges have them its outcome is that of the shortest-path call on the
    weighted copy, exception or route; when some edge lacks one it raises
    [KeyError] or [ZeroDivisionError]. *)
Theorem optimize_route_outcome
    (shortest_path : MultiDiGraph -> node -> node -> result (list node))
    (graph : MultiDiGraph) (origin_node dest_node : node)
    (w_time w_energy w_emissions : Q) :
  (Forall edge_ready (edges graph) ->
   exists es,
     MultiObjective.weighted_edges w_time w_energy w_emissions (edges graph)
     = Ok es /\
     MultiObjective.optimize_route shortest_path graph origin_node dest_node
       w_time w_energy w_emissions
     = shortest_path {| nodes := nodes graph; edges := es |} origin_node dest_node) /\
  ((exists e, In e (edges graph) /\ edge_unready e) ->
   exists x,
     MultiObjective.optimize_route shortest_path graph origin_node dest_node
       w_time w_energy w_emissions = Raise x /\
     (x = KeyError \/ x = ZeroDivisionError)).
Proof.
  unfold MultiObjective.optimize_route. split.
  - intro H.
    assert (Hes : exists es,
               MultiObjective.weighted_edges w_time w_energy w_emissions
                 (edges graph) = Ok es).
    { induction H as [|e es He _ [es' IH]]; [now exists []|].
      destruct (edge_weight_ready w_time w_energy w_emissions e He) as [w Hw].
      cbn [MultiObjective.weighted_edges]. rewrite Hw. cbn [bind].
      rewrite IH. cbn [bind]. eauto. }
    destruct Hes as [es Hes]. exists es. rewrite Hes. auto.
  - intros [e [Hin He]].
    assert (Hes : exists x,
               MultiObjective.weighted_edges w_time w_energy w_emissions
                 (edges graph) = Raise x /\
               (x = KeyError \/ x = ZeroDivisionError)).
    { induction (edges graph) as [|a es IH]; [destruct Hin|].
      cbn [MultiObjective.weighted_edges].
      destruct (MultiObjective.edge_weight w_time w_energy w_emissions (data a))
        as [w|x] eqn:E; cbn [bind].
      - destruct Hin as [<- | Hin].
        + destruct (edge_weight_unready w_time w_energy w_emissions a He) as [x Hx].
          congruence.
        + destruct (IH Hin) as [x [Hx Hk]]. rewrite Hx. cbn [bind]. eauto.
      - exists x. split; [reflexivity|]. exact (edge_weight_raises _ _ _ _ _ E). }
    destruct Hes as [x [Hx Hk]]. exists x. rewrite Hx. auto.
Qed.

(** An instance: the line of three towns, and the same line with an edge of
    speed zero. *)
Lemma optimize_route_outcome_witness :
  (exists es,
     MultiObjective.weighted_edges 1 0 0 (edges MoreExamples.line3) = Ok es /\
     MultiObjective.optimize_route Nx.nx_shortest_path MoreExamples.line3
       "A"%string "C"%string 1 0 0
     = Nx.nx_shortest_path {| nodes := nodes MoreExamples.line3; edges := es |}
         "A"%string "C"%string) /\
  (exists x,
     MultiObjective.optimize_route Nx.nx_shortest_path MoreExamples.line3_stopped
       "A"%string "C"%string 1 0 0 = Raise x /\
     (x = KeyError \/ x = ZeroDivisionError)).
Proof.
  split.
  - apply (optimize_route_outcome Nx.nx_shortest_path MoreExamples.line3
             "A"%string "C"%string 1 0 0).
    repeat constructor; do 2 eexists; (split; [reflexivity|]);
      (split; [reflexivity | discriminate]).
  - apply (optimize_route_outcome Nx.nx_shortest_path MoreExamples.line3_stopped
             "A"%string "C"%string 1 0 0).
    eexists. split; [right; right; left; reflexivity|].
    right. right. exists 0. split; reflexivity.
Defined.

(** The weighted cost is linear in the weights: it is the weighted sum of the
    costs for the time-only, energy-only and emissions-only weights, and the
    emissions-only cost is 0.42 times the energy-only cost. *)
Theorem weighted_cost_is_linear (graph : MultiDiGraph)
    (energy_eval : WeightedCost.RouteEnergyEvaluator) (path_nodes : list node)
    (w_time w_energy w_emissions cost : Q) (truck' : Energy.ElectricTruckModel) :
  WeightedCost.compute_weighted_cost graph energy_eval path_nodes
    w_time w_energy w_emissions = Ok (cost, truck') ->
  exists t e m,
    WeightedCost.compute_weighted_cost graph energy_eval path_nodes 1 0 0
    = Ok (t, truck') /\
    WeightedCost.compute_weighted_cost graph energy_eval path_nodes 0 1 0
    = Ok (e, truck') /\
    WeightedCost.compute_weighted_cost graph energy_eval path_nodes 0 0 1
    = Ok (m, truck') /\
    cost == w_time * t + w_energy * e + w_emissions * m /\
    m == (42 # 100) * e.
Proof.
  unfold WeightedCost.compute_weighted_cost.
  destruct (WeightedCost.total_time_loop graph 0 path_nodes) as [T|]; [|discriminate].
  cbn [bind].
  destruct (RouteEnergy.compute_route_energy _ _ _ _) as [[[segs E] tr]|];
    [|discriminate].
  cbn [bind]. intro H. injection H as <- <-.
  do 3 eexists. repeat split; unfold MultiObjective.co2_intensity; field.
Qed.

(** An instance: the line of three towns with the default truck. *)
Lemma weighted_cost_is_linear_witness :
  exists cost truck' t e m,
    WeightedCost.compute_weighted_cost MoreExamples.line3
      (WeightedCost.mkEvaluator MoreExamples.line3 Energy.init)
      ["A"; "B"; "C"]%string (5 # 10) (25 # 100) (25 # 100) = Ok (cost, truck') /\
    WeightedCost.compute_weighted_cost MoreExamples.line3
      (WeightedCost.mkEvaluator MoreExamples.line3 Energy.init)
      ["A"; "B"; "C"]%string 1 0 0 = Ok (t, truck') /\
    cost == (5 # 10) * t + (25 # 100) * e + (25 # 100) * m /\
    m == (42 # 100) * e.
Proof.
  do 2 eexists.
  assert (H : WeightedCost.compute_weighted_cost MoreExamples.line3
                (WeightedCost.mkEvaluator MoreExamples.line3 Energy.init)
                ["A"; "B"; "C"]%string (5 # 10) (25 # 100) (25 # 100)
              = Ok (_, _)) by (vm_compute; reflexivity).
  destruct (weighted_cost_is_linear _ _ _ _ _ _ _ _ H)
    as (t & e & m & Ht & _ & _ & Hc & Hm).
  exists t, e, m. repeat split; assumption.
Defined.

End SearchMore.

(** ** The SOC profile of a route *)

Module ProfileMore.
Import Graph RouteEnergy MoreStated.

Lemma pydiv_ok_inv (x y q : Q) : pydiv x y = Ok q -> ~ y == 0 /\ q = x / y.
Proof.
  unfold pydiv, Qis_zero. destruct (Qeq_bool y 0) eqn:E; [discriminate|].
  intro H. injection H as <-. split; [|reflexivity].
  intro Hy. apply Qeq_bool_iff in Hy. congruence.
Qed.

Lemma last_cons {A : Type} (a d : A) (l : list A) : last (a :: l) d = last l a.
Proof.
  revert a d. induction l as [|b l IH]; intros a d; [reflexivity|].
  change (last (a :: b :: l) d) with (last (b :: l) d).
  now rewrite !IH.
Qed.

Lemma capacity_after_effect (truck : Energy.ElectricTruckModel) (t : Q) :
  Energy.battery_capacity_kwh (Energy.apply_temperature_effect truck t)
  = Energy.battery_capacity_kwh truck.
Proof.
  rewrite EnergyProps.apply_temperature_effect_sets. reflexivity.
Qed.

Lemma segment_energy_after_effect (truck : Energy.ElectricTruckModel) (t d v gr : Q) :
  Energy.segment_energy_kwh (Energy.apply_temperature_effect truck t) d v gr
  = Energy.segment_energy_kwh truck d v gr.
Proof.
  rewrite EnergyProps.apply_temperature_effect_sets.
  apply EnergyProps.segment_energy_ignores_factor.
Qed.

Lemma segment_of_edge_after_effect (graph : MultiDiGraph)
    (truck : Energy.ElectricTruckModel) (t : Q) (seg : Segment) :
  segment_of_edge graph (Energy.apply_temperature_effect truck t) seg ->
  segment_of_edge graph truck seg.
Proof.
  intros (edge & kph & base & H1 & H2 & H3 & H4 & H5 & H6 & H7 & H8).
  exists edge, kph, base. rewrite segment_energy_after_effect in H7.
  repeat split; assumption.
Qed.

Lemma route_loop_eq (graph : MultiDiGraph) (truck : Energy.ElectricTruckModel)
    (soc tot : Q) (acc : list Segment) (u v : node) (rest : list node) :
  route_loop graph truck soc tot acc (u :: v :: rest)
  = (edge <- edge0 graph u v ;;
     length_m <- getitem (attr_length edge) ;;
     kph <- getitem (attr_speed_kph edge) ;;
     et <- Energy.compute_edge_energy truck length_m (kph * (1000 / 3600))
             (get_default (attr_grade edge) 0) Energy.default_temp_c ;;
     soc_new <- Energy.soc_after_segment (snd et) soc (fst et) ;;
     route_loop graph (snd et) soc_new (tot + fst et)
       (acc ++ [ {| seg_u := u; seg_v := v; length_m := length_m;
                    energy_kwh := fst et; soc_before := soc;
                    soc_after := soc_new;
                    speed_mps := kph * (1000 / 3600);
                    gradient := get_default (attr_grade edge) 0 |} ])
       (v :: rest)).
Proof.
  cbn [route_loop].
  destruct (edge0 graph u v) as [edge|]; [|reflexivity]. cbn [bind].
  destruct (getitem (attr_length edge)) as [len|]; [|reflexivity]. cbn [bind].
  destruct (getitem (attr_speed_kph edge)) as [kph|]; [|reflexivity]. cbn [bind].
  destruct (Energy.compute_edge_energy _ _ _ _ _) as [[e t]|]; reflexivity.
Qed.

Lemma route_loop_step (graph : MultiDiGraph) (truck : Energy.ElectricTruckModel)
    (soc tot : Q) (acc : list Segment) (u v : node) (rest : list node)
    (out : list Segment * Q * Energy.ElectricTruckModel) :
  route_loop graph truck soc tot acc (u :: v :: rest) = Ok out ->
  exists seg,
    let truck1 := Energy.apply_temperature_effect truck Energy.default_temp_c in
    route_loop graph truck1 (soc_after seg) (tot + energy_kwh seg)
      (acc ++ [seg]) (v :: rest) = Ok out /\
    seg_u seg = u /\ seg_v seg = v /\ soc_before seg = soc /\
    soc_after seg = soc - energy_kwh seg / Energy.battery_capacity_kwh truck /\
    segment_of_edge graph truck seg.
Proof.
  rewrite route_loop_eq. intro H.
  destruct (edge0 graph u v) as [edge|] eqn:Ee; [|discriminate]. cbn [bind] in H.
  destruct (attr_length edge) as [len|] eqn:El; [|discriminate]. cbn [getitem bind] in H.
  destruct (attr_speed_kph edge) as [kph|] eqn:Es; [|discriminate].
  cbn [getitem bind] in H.
  unfold Energy.compute_edge_energy in H.
  rewrite segment_energy_after_effect in H.
  destruct (Energy.segment_energy_kwh truck len _ _) as [base|] eqn:Eb; [|discriminate].
  cbn [bind fst snd] in H.
  unfold Energy.soc_after_segment in H. rewrite capacity_after_effect in H.
  destruct (pydiv _ (Energy.battery_capacity_kwh truck)) as [used|] eqn:Eu;
    [|discriminate].
  cbn [bind] in H.
  apply pydiv_ok_inv in Eu. destruct Eu as [_ ->].
  match type of H with
  | route_loop _ _ _ _ (_ ++ [?s]) _ = _ => exists s
  end.
  cbn zeta. split; [exact H|]. cbn [seg_u seg_v soc_before soc_after energy_kwh].
  repeat split.
  exists edge, kph, base.
  cbn [seg_u seg_v length_m speed_mps gradient energy_kwh].
  repeat split; try assumption; try reflexivity.
  - intro Hk. unfold Energy.segment_energy_kwh in Eb.
    rewrite pydiv_zero in Eb by (rewrite Hk; ring). discriminate.
  - change (Energy.temperature_loss_factor
              (Energy.apply_temperature_effect truck Energy.default_temp_c))
      with 1. ring.
Qed.

Lemma route_loop_spec (graph : MultiDiGraph) (path_nodes : list node) :
  forall (truck : Energy.ElectricTruckModel) (soc tot : Q) (acc segs : list Segment)
         (total : Q) (truck' : Energy.ElectricTruckModel),
    route_loop graph truck soc tot acc path_nodes = Ok (segs, total, truck') ->
    exists new,
      segs = acc ++ new /\
      chained soc new /\
      Forall (fun seg => soc_after seg
                         = soc_before seg
                           - energy_kwh seg / Energy.battery_capacity_kwh truck) new /\
      total == tot + sum_energy new /\
      final_soc soc new == soc - sum_energy new / Energy.battery_capacity_kwh truck /\
      map seg_u new = removelast path_nodes /\
      map seg_v new = tl path_nodes /\
      Forall (segment_of_edge graph truck) new.
Proof.
  induction path_nodes as [|u rest IH]; intros truck soc tot acc segs total truck' H.
  - injection H as <- <- _. exists []. rewrite app_nil_r.
    repeat split; try (constructor; fail);
      unfold final_soc, sum_energy, Qdiv; cbn; ring.
  - destruct rest as [|v rest].
    + injection H as <- <- _. exists []. rewrite app_nil_r.
      repeat split; try (constructor; fail);
        unfold final_soc, sum_energy, Qdiv; cbn; ring.
    + apply route_loop_step in H.
      destruct H as (seg & H & Hu & Hv & Hb & Ha & He). cbn zeta in H.
      apply IH in H.
      destruct H as (new & -> & Hch & Hinv & Htot & Hfin & Hmu & Hmv & Hed).
      rewrite capacity_after_effect in Hinv, Hfin.
      exists (seg :: new). rewrite <- app_assoc. cbn [app].
      split; [reflexivity|]. split; [cbn; auto|].
      split; [constructor; [congruence | exact Hinv]|].
      split; [rewrite Htot; unfold sum_energy; cbn; ring|].
      split.
      { unfold final_soc in *. cbn [map]. rewrite last_cons, Hfin, Ha.
        unfold sum_energy. cbn [fold_right]. unfold Qdiv. ring. }
      split.
      { cbn [map]. rewrite Hmu, Hu. reflexivity. }
      split.
      { cbn [map tl]. rewrite Hmv, Hv. reflexivity. }
      constructor; [exact He|].
      eapply Forall_impl; [|exact Hed].
      intros s. apply segment_of_edge_after_effect.
Qed.

(** The SOC profile is consistent: the segments chain from the initial SOC,
    each segment ends at its starting SOC less its energy over the capacity,
    the total is the sum of the energies of the segments, and the last SOC is
    the initial SOC less the total over the capacity. *)
Theorem profile_soc_chain (graph : MultiDiGraph) (truck : Energy.ElectricTruckModel)
    (path_nodes : list node) (initial_soc : Q) (segments : list Segment)
    (total : Q) (truck' : Energy.ElectricTruckModel) :
  compute_route_energy graph truck path_nodes initial_soc
  = Ok (segments, total, truck') ->
  chained initial_soc segments /\
  Forall (fun seg => soc_after seg
                     = soc_before seg
                       - energy_kwh seg / Energy.battery_capacity_kwh truck)
         segments /\
  total == sum_energy segments /\
  final_soc initial_soc segments
  == initial_soc - total / Energy.battery_capacity_kwh truck.
Proof.
  intro H. apply route_loop_spec in H.
  destruct H as (new & -> & Hch & Hinv & Htot & Hfin & _). cbn [app].
  assert (Ht : total == sum_energy new) by (rewrite Htot; ring).
  repeat split; try assumption.
  rewrite Hfin. unfold Qdiv. rewrite Ht. reflexivity.
Qed.

(** An instance: the line of three towns with the default truck. *)
Lemma profile_soc_chain_witness :
  exists segments total truck',
    compute_route_energy MoreExamples.line3 Energy.init
      ["A"; "B"; "C"]%string default_initial_soc = Ok (segments, total, truck') /\
    chained default_initial_soc segments /\
    total == sum_energy segments /\
    final_soc default_initial_soc segments
    == default_initial_soc - total / Energy.battery_capacity_kwh Energy.init.
Proof.
  do 3 eexists. split; [vm_compute; reflexivity|].
  match goal with
  | |- chained _ ?segs /\ ?tot == _ /\ _ =>
      destruct (profile_soc_chain MoreExamples.line3 Energy.init
                  ["A"; "B"; "C"]%string default_initial_soc segs tot _ eq_refl)
        as (H1 & _ & H3 & H4)
  end.
  repeat split; assumption.
Defined.

(** The profile follows the route: it has one segment for each pair of
    consecutive nodes, in order, and each segment records the length, the
    speed and the gradient of the edge with key 0 that joins its nodes, whose
    speed is not zero, and the energy of [segment_energy_kwh] for them, without
    derating. *)
Theorem profile_follows_route (graph : MultiDiGraph)
    (truck : Energy.ElectricTruckModel) (path_nodes : list node)
    (initial_soc : Q) (segments : list Segment) (total : Q)
    (truck' : Energy.ElectricTruckModel) :
  compute_route_energy graph truck path_nodes initial_soc
  = Ok (segments, total, truck') ->
  List.length segments = (List.length path_nodes - 1)%nat /\
  map seg_u segments = removelast path_nodes /\
  map seg_v segments = tl path_nodes /\
  Forall (segment_of_edge graph truck) segments.
Proof.
  intro H. apply route_loop_spec in H.
  destruct H as (new & -> & _ & _ & _ & _ & Hmu & Hmv & Hed). cbn [app].
  repeat split; try assumption.
  rewrite <- (length_map seg_v), Hmv. destruct path_nodes; cbn; lia.
Qed.

(** An instance: the line of three towns with the default truck. *)
Lemma profile_follows_route_witness :
  exists segments total truck',
    compute_route_energy MoreExamples.line3 Energy.init
      ["A"; "B"; "C"]%string default_initial_soc = Ok (segments, total, truck') /\
    List.length segments = 2%nat /\
    map seg_u segments = ["A"; "B"]%string /\
    map seg_v segments = ["B"; "C"]%string.
Proof.
  do 3 eexists. split; [vm_compute; reflexivity|].
  match goal with
  | |- List.length ?segs = _ /\ _ =>
      destruct (profile_follows_route MoreExamples.line3 Energy.init
                  ["A"; "B"; "C"]%string default_initial_soc segs _ _ eq_refl)
        as (H1 & H2 & H3 & _)
  end.
  repeat split; assumption.
Defined.

(** A derating factor set on the truck before the call has no effect on the
    profile: the segments and the total are those of the truck without it,
    and so is the exception when the call raises. *)
Theorem profile_forgets_factor (graph : MultiDiGraph)
    (truck : Energy.ElectricTruckModel) (f : Q) (path_nodes : list node)
    (initial_soc : Q) :
  profile_of (compute_route_energy graph
                (Energy.set_temperature_loss_factor truck f) path_nodes initial_soc)
  = profile_of (compute_route_energy graph truck path_nodes initial_soc).
Proof.
  unfold compute_route_energy.
  destruct path_nodes as [|u [|v rest]]; [reflexivity | reflexivity |].
  rewrite !route_loop_eq.
  destruct (edge0 graph u v) as [edge|]; [|reflexivity]. cbn [bind].
  destruct (getitem (attr_length edge)) as [len|]; [|reflexivity]. cbn [bind].
  destruct (getitem (attr_speed_kph edge)) as [kph|]; [|reflexivity]. cbn [bind].
  now rewrite EnergyMore.compute_edge_energy_ignores_factor.
Qed.

End ProfileMore.

(** ** Travel times, time-only weights and city coordinates *)

Module GraphMore.
Import Graph MoreStated.

Lemma with_travel_time_inv (e e' : Edge) :
  GraphProcessor.with_travel_time e = Ok e' ->
  exists speed,
    attr_speed_kph (data e) = Some speed /\ ~ speed == 0 /\
    e' = {| src := src e; dst := dst e; key := key e;
            data := set_travel_time_h (data e)
                      (get_default (attr_length (data e)) 1 / 1000 / speed) |}.
Proof.
  unfold GraphProcessor.with_travel_time.
  destruct (attr_speed_kph (data e)) as [speed|]; [|discriminate].
  cbn [getitem bind].
  destruct (pydiv _ speed) as [t|] eqn:E; [|discriminate]. cbn [bind].
  apply ProfileMore.pydiv_ok_inv in E. destruct E as [Hz ->].
  intro H. injection H as <-. exists speed. auto.
Qed.

Lemma with_travel_time_again (e e' : Edge) :
  GraphProcessor.with_travel_time e = Ok e' ->
  GraphProcessor.with_travel_time e' = Ok e'.
Proof.
  intro H. destruct (with_travel_time_inv e e' H) as (speed & Hs & Hz & ->).
  unfold GraphProcessor.with_travel_time. cbn. rewrite Hs. cbn [getitem bind].
  rewrite pydiv_nonzero by exact Hz. reflexivity.
Qed.

(** When [add_travel_time_weights] returns, the graph has the same nodes and
    the same edges in the same order, every edge has a speed that is not zero
    and carries the travel time (length / 1000) / speed, with 1 m for a missing
    length, and a second call changes nothing. *)
Theorem travel_time_weights_outcome (graph graph' : MultiDiGraph) :
  GraphProcessor.add_travel_time_weights graph = Ok graph' ->
  nodes graph' = nodes graph /\
  Forall2 (fun e e' =>
             exists speed,
               attr_speed_kph (data e) = Some speed /\ ~ speed == 0 /\
               e' = {| src := src e; dst := dst e; key := key e;
                       data := set_travel_time_h (data e)
                                 (get_default (attr_length (data e)) 1
                                  / 1000 / speed) |})
          (edges graph) (edges graph') /\
  GraphProcessor.add_travel_time_weights graph' = Ok graph'.
Proof.
  unfold GraphProcessor.add_travel_time_weights. intro H.
  destruct (GraphProcessor.with_travel_times (edges graph)) as [es|] eqn:E;
    [|discriminate].
  cbn [bind] in H. injection H as <-. cbn [nodes edges].
  split; [reflexivity|].
  assert (HF : Forall2 (fun e e' => GraphProcessor.with_travel_time e = Ok e')
                 (edges graph) es).
  { revert es E. induction (edges graph) as [|a l IH]; intros es E.
    - injection E as <-. constructor.
    - cbn [GraphProcessor.with_travel_times] in E.
      destruct (GraphProcessor.with_travel_time a) as [a'|] eqn:Ea; [|discriminate].
      cbn [bind] in E.
      destruct (GraphProcessor.with_travel_times l) as [l'|]; [|discriminate].
      injection E as <-. constructor; [exact Ea | now apply IH]. }
  split.
  - eapply Forall2_impl; [|exact HF]. intros e e'. apply with_travel_time_inv.
  - assert (Hes : GraphProcessor.with_travel_times es = Ok es).
    { clear E. induction HF as [|a a' l l' Ha _ IH]; [reflexivity|].
      cbn [GraphProcessor.with_travel_times].
      rewrite (with_travel_time_again a a' Ha). cbn [bind].
      rewrite IH. reflexivity. }
    rewrite Hes. reflexivity.
Qed.

(** An instance: the line of three towns. *)
Lemma travel_time_weights_outcome_witness :
  exists graph',
    GraphProcessor.add_travel_time_weights MoreExamples.line3 = Ok graph' /\
    nodes graph' = nodes MoreExamples.line3 /\
    GraphProcessor.add_travel_time_weights graph' = Ok graph'.
Proof.
  eexists. split; [vm_compute; reflexivity|].
  match goal with
  | |- nodes ?g = _ /\ _ =>
      destruct (travel_time_weights_outcome MoreExamples.line3 g eq_refl)
        as (H1 & _ & H3)
  end.
  split; assumption.
Defined.

(** On an edge with a length and a speed that is not zero, the weight that
    the sweep assigns for the time-only vector, the weight of
    [optimize_route] for the time-only weights and the travel time of
    [add_travel_time_weights] are the same number of hours. *)
Theorem time_only_weight_is_travel_time (e : Edge) :
  edge_ready e ->
  exists e1 e2 w1 w2 t,
    Optimization.weighted_edge (1, 0, 0) e = Ok e1 /\
    attr_weight (data e1) = Some w1 /\
    MultiObjective.edge_weight 1 0 0 (data e) = Ok w2 /\
    GraphProcessor.with_travel_time e = Ok e2 /\
    attr_travel_time_h (data e2) = Some t /\
    w1 == t /\ w2 == t.
Proof.
  intros (len & speed & Hl & Hs & Hz).
  unfold Optimization.weighted_edge, MultiObjective.edge_weight,
    GraphProcessor.with_travel_time.
  rewrite Hl, Hs. cbn [getitem get_default bind].
  rewrite !pydiv_nonzero by exact Hz. cbn [bind].
  do 5 eexists. repeat split; cbn; try reflexivity;
    unfold MultiObjective.co2_intensity; field; exact Hz.
Qed.

(** An instance: the edge from Hamburg to Hannover, 150 km at 100 km/h. *)
Lemma time_only_weight_is_travel_time_witness :
  exists e1 e2 w1 w2 t,
    Optimization.weighted_edge (1, 0, 0)
      (mkEdge "Hamburg"%string "Hannover"%string 0 (mkData (Some 150000) (Some 100) None None None))
    = Ok e1 /\
    attr_weight (data e1) = Some w1 /\
    MultiObjective.edge_weight 1 0 0
      (mkData (Some 150000) (Some 100) None None None) = Ok w2 /\
    GraphProcessor.with_travel_time
      (mkEdge "Hamburg"%string "Hannover"%string 0 (mkData (Some 150000) (Some 100) None None None))
    = Ok e2 /\
    attr_travel_time_h (data e2) = Some t /\
    w1 == t /\ w2 == t.
Proof.
  apply (time_only_weight_is_travel_time
           (mkEdge "Hamburg"%string "Hannover"%string 0
                   (mkData (Some 150000) (Some 100) None None None))).
  exists 150000, 100. repeat split; discriminate.
Defined.

Lemma nodes_get_replaced (ns : list (node * (Q * Q))) (name other : node) (x y : Q) :
  let ns' := map (fun n => if String.eqb (fst n) name
                           then (name, (x, y)) else n) ns in
  (existsb (fun n => String.eqb (fst n) name) ns = true ->
   RoadNetworkQueries.nodes_get ns' name = Some (x, y)) /\
  (other <> name ->
   RoadNetworkQueries.nodes_get ns' other = RoadNetworkQueries.nodes_get ns other).
Proof.
  cbn zeta. induction ns as [|[n xy] ns [IH1 IH2]]; [split; [discriminate | reflexivity]|].
  cbn [map existsb fst]. destruct (String.eqb n name) eqn:E.
  - apply String.eqb_eq in E. subst n.
    cbn [RoadNetworkQueries.nodes_get]. rewrite String.eqb_refl.
    split; [reflexivity|]. intro H.
    assert (Hf : String.eqb name other = false)
      by (apply String.eqb_neq; congruence).
    rewrite Hf. now apply IH2.
  - cbn [RoadNetworkQueries.nodes_get orb]. rewrite E. split; [exact IH1|].
    intro H. destruct (String.eqb n other); [reflexivity | now apply IH2].
Qed.

Lemma nodes_get_appended (ns : list (node * (Q * Q))) (name other : node) (x y : Q) :
  existsb (fun n => String.eqb (fst n) name) ns = false ->
  RoadNetworkQueries.nodes_get (ns ++ [(name, (x, y))]) name = Some (x, y) /\
  (other <> name ->
   RoadNetworkQueries.nodes_get (ns ++ [(name, (x, y))]) other
   = RoadNetworkQueries.nodes_get ns other).
Proof.
  induction ns as [|[n xy] ns IH]; intro Hex.
  - cbn. rewrite String.eqb_refl. split; [reflexivity|]. intro H.
    assert (Hf : String.eqb name other = false)
      by (apply String.eqb_neq; congruence).
    now rewrite Hf.
  - cbn [existsb fst] in Hex. apply orb_false_iff in Hex. destruct Hex as [E Hex].
    destruct (IH Hex) as [IH1 IH2].
    cbn [app RoadNetworkQueries.nodes_get]. rewrite E. split; [exact IH1|].
    intro H. destruct (String.eqb n other); [reflexivity | now apply IH2].
Qed.

(** Coordinates round trip: after [add_node] with longitude [lon] and
    latitude [lat], [get_city_coordinates] gives [(lat, lon)] for that node and
    what it gave before for every other node. *)
Theorem city_coordinates_round_trip (G : MultiDiGraph) (name other : node)
    (lon lat : Q) :
  RoadNetworkQueries.get_city_coordinates (add_node G name lon lat) name
  = Some (lat, lon) /\
  (other <> name ->
   RoadNetworkQueries.get_city_coordinates (add_node G name lon lat) other
   = RoadNetworkQueries.get_city_coordinates G other).
Proof.
  unfold RoadNetworkQueries.get_city_coordinates, add_node. cbn [nodes].
  destruct (existsb (fun n => String.eqb (fst n) name) (nodes G)) eqn:Ex.
  - destruct (nodes_get_replaced (nodes G) name other lon lat) as [H1 H2].
    cbn zeta in H1, H2. rewrite (H1 Ex). split; [reflexivity|].
    intro H. now rewrite H2.
  - destruct (nodes_get_appended (nodes G) name other lon lat Ex) as [H1 H2].
    rewrite H1. split; [reflexivity|].
    intro H. now rewrite H2.
Qed.

(** An instance: a node added to the network of graph_builder.py. *)
Lemma city_coordinates_round_trip_witness :
  RoadNetworkQueries.get_city_coordinates
    (add_node RoadNetwork.build_graph_with_chargers "start"%string 10 53) "start"%string
  = Some (53, 10) /\
  RoadNetworkQueries.get_city_coordinates
    (add_node RoadNetwork.build_graph_with_chargers "start"%string 10 53) "Munich"%string
  = RoadNetworkQueries.get_city_coordinates
      RoadNetwork.build_graph_with_chargers "Munich"%string.
Proof.
  destruct (city_coordinates_round_trip RoadNetwork.build_graph_with_chargers
              "start"%string "Munich"%string 10 53) as [H1 H2].
  split; [exact H1|]. apply H2. discriminate.
Defined.

End GraphMore.

(** ** SOC limits along a profile *)

Module FeasibilityMore.
Import Graph RouteEnergy MoreStated.

Lemma consuming_chain_bounds (cap : Q) (segments : list Segment) :
  0 < cap ->
  forall soc,
    chained soc segments ->
    Forall (fun seg => soc_after seg = soc_before seg - energy_kwh seg / cap)
           segments ->
    Forall (fun seg => 0 <= energy_kwh seg) segments ->
    final_soc soc segments <= soc /\
    forall seg, In seg segments ->
                final_soc soc segments <= soc_after seg /\ soc_after seg <= soc.
Proof.
  intro Hcap. induction segments as [|s rest IH]; intros soc Hch Hinv Hpos.
  - split; [apply Qle_refl | intros seg []].
  - destruct Hch as [Hb Hch].
    inversion Hinv as [|? ? Hs Hinv']; subst.
    inversion Hpos as [|? ? He Hpos']; subst.
    destruct (IH (soc_after s) Hch Hinv' Hpos') as [Hfin Hall].
    assert (Hdrop : soc_after s <= soc_before s).
    { rewrite Hs. assert (0 <= energy_kwh s / cap).
      { apply Qle_shift_div_l; [exact Hcap | now rewrite Qmult_0_l]. }
      lra. }
    assert (Hf : final_soc (soc_before s) (s :: rest) = final_soc (soc_after s) rest).
    { unfold final_soc. cbn [map]. apply ProfileMore.last_cons. }
    rewrite Hf. split; [lra|].
    intros seg [<- | Hin]; [split; [exact Hfin | exact Hdrop]|].
    destruct (Hall seg Hin). split; lra.
Qed.

(** On a route that only consumes energy (no segment regenerates), the SOC
    never rises: when the initial SOC is within the limits of [soc_valid] and
    the SOC at the end of the profile is too, so is the SOC after every
    segment. *)
Theorem consuming_profile_valid_if_end_valid (graph : MultiDiGraph)
    (truck : Energy.ElectricTruckModel) (path_nodes : list node)
    (initial_soc : Q) (segments : list Segment) (total : Q)
    (truck' : Energy.ElectricTruckModel) :
  compute_route_energy graph truck path_nodes initial_soc
  = Ok (segments, total, truck') ->
  0 < Energy.battery_capacity_kwh truck ->
  Forall (fun seg => 0 <= energy_kwh seg) segments ->
  Energy.soc_valid truck initial_soc = true ->
  Energy.soc_valid truck (final_soc initial_soc segments) = true ->
  Forall (fun seg => Energy.soc_valid truck (soc_after seg) = true) segments.
Proof.
  intros H Hcap Hpos Hv0 Hvf. apply ProfileMore.route_loop_spec in H.
  destruct H as (new & -> & Hch & Hinv & _). cbn [app] in *.
  destruct (consuming_chain_bounds _ new Hcap initial_soc Hch Hinv Hpos)
    as [_ Hall].
  unfold Energy.soc_valid in *.
  apply andb_true_iff in Hv0. destruct Hv0 as [_ Hmax].
  apply andb_true_iff in Hvf. destruct Hvf as [Hmin _].
  apply Qleb_le in Hmax. apply Qleb_le in Hmin.
  apply Forall_forall. intros seg Hin. destruct (Hall seg Hin).
  apply andb_true_iff. split; apply Qleb_le; lra.
Qed.

(** An instance: two edges of ten metres with the default truck. *)
Lemma consuming_profile_valid_if_end_valid_witness :
  exists segments total truck',
    compute_route_energy MoreExamples.short_line Energy.init
      ["A"; "B"; "C"]%string default_initial_soc = Ok (segments, total, truck') /\
    List.length segments = 2%nat /\
    Forall (fun seg => Energy.soc_valid Energy.init (soc_after seg) = true) segments.
Proof.
  do 3 eexists. split; [vm_compute; reflexivity|]. split; [reflexivity|].
  match goal with
  | |- Forall _ ?segs =>
      apply (consuming_profile_valid_if_end_valid MoreExamples.short_line
               Energy.init ["A"; "B"; "C"]%string default_initial_soc segs _ _
               eq_refl)
  end.
  - reflexivity.
  - repeat constructor; vm_compute; discriminate.
  - reflexivity.
  - vm_compute. reflexivity.
Defined.

End FeasibilityMore.
